(** * The validation web server and its conditional-request decisions

    A shallow embedding of [validation_webserver.go] (the content
    generator with its ETag and Last-Modified checks and the fixed-size
    response buffer) and of the request builders of [validserver_test.go].

    Conventions.
    - Go [int] values are [Z]; every value that occurs is far from the
      64-bit bounds (lengths, positions up to 4096, calendar fields).
    - Go strings are [string]; [[]byte] is [list Byte.byte].
    - [time.Time] is kept as its UTC civil fields: the handler only reads
      fields of [time.Now().UTC()] and rebuilds times with [time.Date]
      from fields that are in range.
    - [map[string][]string] (http.Header) is a [gmap string (list string)].
    - A run-time panic is an explicit result, [Panicked].
    - The line printed on standard output by [respond] is not part of the
      HTTP exchange and is left out. *)

From Stdlib Require Import ZArith Lia.
From Stdlib Require Ascii String.
From Stdlib.Strings Require Byte.
From stdpp Require Import base option list gmap strings fin_maps sorting.

Local Open Scope Z_scope.

(** ** Characters and strings *)

Definition newline : string := String (Ascii.ascii_of_nat 10) EmptyString.
Definition dquote : string := String (Ascii.ascii_of_nat 34) EmptyString.

(** Go's [len] on a string. *)
Definition len (s : string) : Z := Z.of_nat (String.length s).

(** Go's [strings.Index]: the position of the first occurrence of [substr]
    in [s], or [-1]. *)
Definition strings_Index (s substr : string) : Z :=
  match String.index 0 substr s with
  | Some n => Z.of_nat n
  | None => -1
  end.

(** ** Decimal rendering *)

Definition digit_char (d : Z) : Ascii.ascii :=
  Ascii.ascii_of_nat (48 + Z.to_nat d).

(** The decimal digits of a natural number, most significant first.  The
    recursion is on a fuel that always suffices for the callers: a number
    below [10 ^ fuel] is rendered in full. *)
Fixpoint decimal_digits (fuel : nat) (u : Z) (acc : string) : string :=
  match fuel with
  | O => acc
  | S fuel' =>
      let q := u / 10 in
      let acc' := String (digit_char (u - q * 10)) acc in
      if 10 <=? u then decimal_digits fuel' q acc' else acc'
  end.

Fixpoint zeros (n : nat) : string :=
  match n with
  | O => EmptyString
  | S n' => String (Ascii.ascii_of_nat 48) (zeros n')
  end.

(** [appendInt] of package [time]: the decimal form of [x], with a leading
    minus sign when negative, zero-padded to [width] digits. *)
Definition appendInt (x : Z) (width : nat) : string :=
  let u := Z.abs x in
  let ds := decimal_digits 20 u EmptyString in
  (if x <? 0 then "-" else "") +:+
  zeros (width - String.length ds) +:+ ds.

(** [strconv.Itoa]. *)
Definition strconv_Itoa (x : Z) : string := appendInt x 0.

(** ** Package time, restricted to UTC civil time *)

Module time.

Record Time : Type := mkTime {
  Year : Z;
  Month : Z;
  Day : Z;
  Hour : Z;
  Minute : Z;
  Second : Z;
  Nanosecond : Z
}.

(** [time.Date(year, month, day, hour, min, sec, nsec, loc)] with [loc]
    the UTC location.  Go normalises arguments that are out of range;
    every call in the handler passes fields that are in range (see
    [content_time_in_range]), where normalisation changes nothing. *)
Definition Date (year month day hour min sec nsec : Z) : Time :=
  mkTime year month day hour min sec nsec.

Definition in_range (t : Time) : Prop :=
  1 <= Month t <= 12 /\ 1 <= Day t <= 31 /\ 0 <= Hour t <= 23 /\
  0 <= Minute t <= 59 /\ 0 <= Second t <= 59 /\
  0 <= Nanosecond t <= 999999999.

(** Days from 1970-01-01 to the given civil date (proleptic Gregorian). *)
Definition days_from_civil (y m d : Z) : Z :=
  let y' := if m <=? 2 then y - 1 else y in
  let era := y' / 400 in
  let yoe := y' - era * 400 in
  let mp := (m + 9) mod 12 in
  let doy := (153 * mp + 2) / 5 + d - 1 in
  let doe := yoe * 365 + yoe / 4 - yoe / 100 + doy in
  era * 146097 + doe - 719468.

(** [Weekday()]: 0 is Sunday.  1970-01-01 was a Thursday. *)
Definition Weekday (t : Time) : Z :=
  (days_from_civil (Year t) (Month t) (Day t) + 4) mod 7.

Definition weekday_abbrev (w : Z) : string :=
  match w with
  | 0 => "Sun" | 1 => "Mon" | 2 => "Tue" | 3 => "Wed"
  | 4 => "Thu" | 5 => "Fri" | _ => "Sat"
  end.

Definition month_abbrev (m : Z) : string :=
  match m with
  | 1 => "Jan" | 2 => "Feb" | 3 => "Mar" | 4 => "Apr"
  | 5 => "May" | 6 => "Jun" | 7 => "Jul" | 8 => "Aug"
  | 9 => "Sep" | 10 => "Oct" | 11 => "Nov" | _ => "Dec"
  end.

Definition clock (t : Time) : string :=
  appendInt (Hour t) 2 +:+ ":" +:+ appendInt (Minute t) 2 +:+ ":" +:+
  appendInt (Second t) 2.

(** [t.Format(time.RFC1123Z)], layout [Mon, 02 Jan 2006 15:04:05 -0700],
    for a time in UTC. *)
Definition Format_RFC1123Z (t : Time) : string :=
  weekday_abbrev (Weekday t) +:+ ", " +:+ appendInt (Day t) 2 +:+ " " +:+
  month_abbrev (Month t) +:+ " " +:+ appendInt (Year t) 4 +:+ " " +:+
  clock t +:+ " +0000".

(** [t.Format] with the ETag layout [2006-01-02,15:04:05]. *)
Definition Format_etag (t : Time) : string :=
  appendInt (Year t) 4 +:+ "-" +:+ appendInt (Month t) 2 +:+ "-" +:+
  appendInt (Day t) 2 +:+ "," +:+ clock t.

End time.

(** ** Package net/http: headers, requests, responses *)

Module http.

Definition is_lower (c : Ascii.ascii) : bool :=
  let n := Z.of_N (Ascii.N_of_ascii c) in (97 <=? n) && (n <=? 122).

Definition is_upper (c : Ascii.ascii) : bool :=
  let n := Z.of_N (Ascii.N_of_ascii c) in (65 <=? n) && (n <=? 90).

Definition is_digit (c : Ascii.ascii) : bool :=
  let n := Z.of_N (Ascii.N_of_ascii c) in (48 <=? n) && (n <=? 57).

(** [validHeaderFieldByte]: the token characters of RFC 7230. *)
Definition validHeaderFieldByte (c : Ascii.ascii) : bool :=
  is_lower c || is_upper c || is_digit c ||
  bool_decide (Z.of_N (Ascii.N_of_ascii c) ∈
    [33; 35; 36; 37; 38; 39; 42; 43; 45; 46; 94; 95; 96; 124; 126]).

Fixpoint all_valid (s : string) : bool :=
  match s with
  | EmptyString => true
  | String c s' => validHeaderFieldByte c && all_valid s'
  end.

Definition shift_case (c : Ascii.ascii) (delta : Z) : Ascii.ascii :=
  Ascii.ascii_of_N (Z.to_N (Z.of_N (Ascii.N_of_ascii c) + delta)).

(** The canonicalising loop: upper case for the first letter and for a
    letter after a dash, lower case elsewhere. *)
Fixpoint canonical_from (upper : bool) (s : string) : string :=
  match s with
  | EmptyString => EmptyString
  | String c s' =>
      let c' :=
        if upper && is_lower c then shift_case c (-32)
        else if negb upper && is_upper c then shift_case c 32
        else c in
      String c' (canonical_from (Ascii.eqb c' (Ascii.ascii_of_nat 45)) s')
  end.

(** [textproto.CanonicalMIMEHeaderKey]: a key holding a byte that is not
    a token character is returned unchanged. *)
Definition CanonicalMIMEHeaderKey (s : string) : string :=
  if all_valid s then canonical_from true s else s.

(** [http.Header], a [map[string][]string] under canonical keys. *)
Abbreviation Header := (gmap string (list string)).

(** [h.Get(key)]: the first value under the canonical key, or the empty
    string. *)
Definition Get (h : Header) (key : string) : string :=
  match h !! CanonicalMIMEHeaderKey key with
  | Some (v :: _) => v
  | _ => ""
  end.

(** [h.Set(key, value)]. *)
Definition Set_ (h : Header) (key value : string) : Header :=
  <[CanonicalMIMEHeaderKey key := [value]]> h.

(** [h.Add(key, value)]. *)
Definition Add (h : Header) (key value : string) : Header :=
  let k := CanonicalMIMEHeaderKey key in
  <[k := default [] (h !! k) ++ [value]]> h.

(** The fields of [*http.Request] that the handler reads. *)
Record Request : Type := mkRequest {
  Method : string;
  URL_Path : string;
  ReqHeader : Header
}.

(** What a handler hands to its [http.ResponseWriter]: the status, the
    header map at the time the status is written, and the body bytes
    that are sent.  Headers the server adds by itself (Date, ...) are
    not part of it. *)
Record Response : Type := mkResponse {
  StatusCode : Z;
  RespHeader : Header;
  Body : string
}.

(** [bodyAllowedForStatus]: writes to the body of a 1xx, 204 or 304
    response are refused by the server. *)
Definition bodyAllowedForStatus (status : Z) : bool :=
  if (100 <=? status) && (status <=? 199) then false
  else if status =? 204 then false
  else if status =? 304 then false
  else true.

End http.

(** ** Results of code that may panic *)

Inductive panic : Type :=
  | slice_bounds_out_of_range
  | index_out_of_range.

Inductive result (A : Type) : Type :=
  | Ok (a : A)
  | Panicked (p : panic).

Arguments Ok {A} a.
Arguments Panicked {A} p.

Global Instance result_ret : MRet result := fun A a => Ok a.
Global Instance result_bind : MBind result := fun A B f m =>
  match m with
  | Ok a => f a
  | Panicked p => Panicked p
  end.

(** ** The response buffer *)

Record ByteWriter : Type := mkByteWriter {
  buf : list Byte.byte;
  pos : Z
}.

Definition cap (s : ByteWriter) : Z := Z.of_nat (length (buf s)).

(** [make([]byte, 4096)], position 0. *)
Definition Buffy : ByteWriter :=
  mkByteWriter (replicate 4096 Byte.x00) 0.

(** The slice expression [b[lo:hi]] panics unless [0 <= lo <= hi <= cap(b)];
    [copy] into it then overwrites exactly the bytes from [lo] to [hi]
    when the source has [hi - lo] bytes. *)
Definition copy_into_slice (b : list Byte.byte) (lo hi : Z)
    (src : list Byte.byte) : result (list Byte.byte) :=
  if (0 <=? lo) && (lo <=? hi) && (hi <=? Z.of_nat (length b)) then
    Ok (take (Z.to_nat lo) b ++ take (Z.to_nat (hi - lo)) src
        ++ drop (Z.to_nat hi) b)
  else Panicked slice_bounds_out_of_range.

(** Method [Write] of [ByteWriter]: returns the writer after the call and [n]; the
    error result is always [nil]. *)
Definition Write (s : ByteWriter) (bs : list Byte.byte)
    : result (ByteWriter * Z) :=
  let n := Z.of_nat (length bs) in
  buf' ← copy_into_slice (buf s) (pos s) (pos s + n) bs;
  mret (mkByteWriter buf' (pos s + n), n).

(** Method [AsString] of [ByteWriter]: [string(b.buf[0:b.pos])]. *)
Definition AsString (b : ByteWriter) : string :=
  String.string_of_list_byte (take (Z.to_nat (pos b)) (buf b)).

(** [fmt.Fprint(b, s)] for one string operand: a single [Write]. *)
Definition Fprint (b : ByteWriter) (s : string) : result ByteWriter :=
  r ← Write b (String.list_byte_of_string s); mret (r.1).

(** [fmt.Fprintln(b, operands...)] for string operands: the operands
    separated by spaces and followed by a newline, in a single [Write]. *)
Definition Fprintln (b : ByteWriter) (operands : list string)
    : result ByteWriter :=
  Fprint b (String.concat " " operands +:+ newline).

(** ** The response writer *)

(** The state of the [http.ResponseWriter] of one request: the header map,
    the status once written, and the body bytes accepted so far. *)
Record ResponseWriter : Type := mkWriter {
  w_header : http.Header;
  w_status : option Z;
  w_body : string
}.

Definition new_writer : ResponseWriter := mkWriter ∅ None "".

(** [w.Header().Set(key, value)]. *)
Definition w_Set (w : ResponseWriter) (key value : string) : ResponseWriter :=
  mkWriter (http.Set_ (w_header w) key value) (w_status w) (w_body w).

(** [w.WriteHeader(code)]: only the first call counts. *)
Definition WriteHeader (w : ResponseWriter) (code : Z) : ResponseWriter :=
  match w_status w with
  | Some _ => w
  | None => mkWriter (w_header w) (Some code) (w_body w)
  end.

(** [fmt.Fprint(w, s)]: a first write sends status 200 if none was
    written; the bytes are dropped when the status allows no body. *)
Definition w_Fprint (w : ResponseWriter) (s : string) : ResponseWriter :=
  let w1 := WriteHeader w 200 in
  if http.bodyAllowedForStatus (default 200 (w_status w1))
  then mkWriter (w_header w1) (w_status w1) (w_body w1 +:+ s)
  else w1.

(** [http.Error(w, error, code)]. *)
Definition http_Error (w : ResponseWriter) (error : string) (code : Z)
    : ResponseWriter :=
  let w1 := w_Set w "Content-Type" "text/plain; charset=utf-8" in
  let w2 := w_Set w1 "X-Content-Type-Options" "nosniff" in
  w_Fprint (WriteHeader w2 code) (error +:+ newline).

(** The exchange as the client sees it once the handler has returned. *)
Definition response_of (w : ResponseWriter) : http.Response :=
  http.mkResponse (default 200 (w_status w)) (w_header w) (w_body w).

(** ** The handler *)

Definition granularity_in_seconds : Z := 15.

Definition help_text : string := "
USAGE: You can go to any URL and get some basic content.

If the following components are present in the path URL, then you will
get some additional behaviour:
  /datemod/ -> Sets a Date-Modified header and performs date resource validation.
  /etag/ -> Sets an E-Tag header and performs E-Tag resource validation.
  /headers/ -> Includes the request headers in the content response.
  /static/ -> Uses a fixed timestamp rather than an updating one.
  
You can combine the path components too:
  /resource/headers/static/blahblah/etag/anythingyoulike/
".

(** The closure [respond] of [handle]: an error response when a message
    is given, nothing on the wire otherwise. *)
Definition respond (w : ResponseWriter) (code : Z) (message : string)
    : ResponseWriter :=
  if negb (String.eqb message "") then http_Error w message code else w.

(** The variable [then] of [handle], lines 87 to 91, with the granularity
    as a parameter: the current time with its seconds lowered to a
    multiple of the granularity and its nanoseconds cleared, or the fixed
    date of a static resource. *)
Definition content_time (granularity : Z) (be_static : bool)
    (now : time.Time) : time.Time :=
  let seconds := (time.Second now ÷ granularity) * granularity in
  let then_ := time.Date (time.Year now) (time.Month now) (time.Day now)
                 (time.Hour now) (time.Minute now) seconds 0 in
  if be_static then time.Date 2012 12 20 20 12 12 0 else then_.

(** A check either answers the request (the handler returns) or lets it
    go on with the custom headers collected so far. *)
Inductive checked : Type :=
  | Returned (w : ResponseWriter)
  | Continue (headers : gmap string string).

(** The ETag block of [handle], lines 99 to 124. *)
Definition validate_etags (use_etags : bool) (then_ : time.Time)
    (r : http.Request) (w : ResponseWriter) (headers : gmap string string)
    : checked :=
  if use_etags then
    let etag := time.Format_etag then_ in
    let etag_enc := dquote +:+ etag +:+ dquote in
    let etag_if_match := http.Get (http.ReqHeader r) "If-Match" in
    if (0 <? len etag_if_match) &&
       negb (String.eqb etag_enc (dquote +:+ "*" +:+ dquote)
             || String.eqb etag_enc etag_if_match)
    then Returned (respond w 412 "If-Match failed: ETag did not match")
    else
      let etag_if_none_match := http.Get (http.ReqHeader r) "If-None-Match" in
      if (0 <? len etag_if_none_match) &&
         (String.eqb etag_enc (dquote +:+ "*" +:+ dquote)
          || String.eqb etag_enc etag_if_none_match)
      then Returned (respond w 304 "Content matches on If-None-Match")
      else Continue (<["E-Tag" := etag_enc]> headers)
  else Continue headers.

(** The Last-Modified block of [handle], lines 128 to 146. *)
Definition validate_since (use_lastmod : bool) (then_header : string)
    (r : http.Request) (w : ResponseWriter) (headers : gmap string string)
    : checked :=
  if use_lastmod then
    let unmod_since := http.Get (http.ReqHeader r) "If-Unmodified-Since" in
    if (0 <? len unmod_since) && negb (String.eqb unmod_since then_header)
    then Returned (respond w 412 "Document has been modified")
    else
      let mod_since := http.Get (http.ReqHeader r) "If-Modified-Since" in
      if (0 <? len mod_since) && negb (String.eqb mod_since then_header)
      then Returned (respond w 304 "Document has not been modified")
      else Continue (<["Last-Modified" := then_header]> headers)
  else Continue headers.

(** Byte-wise order of Go strings, as used by [sort.Strings]. *)
Definition string_le (a b : string) : Prop := Is_true (String.leb a b).

Global Instance string_le_dec (a b : string) : Decision (string_le a b) :=
  Is_true_dec _.

(** The keys of the request header map, sorted. *)
Definition sorted_keys (h : http.Header) : list string :=
  merge_sort string_le (map_to_list h).*1.

(** [fmt.Fprintf(b, "  %v: %v\n", key, value)]. *)
Definition Fprintf_header (b : ByteWriter) (key value : string)
    : result ByteWriter :=
  Fprint b ("  " +:+ key +:+ ": " +:+ value +:+ newline).

(** The loop over the sorted keys, lines 172 to 174; [r.Header[key][0]]
    panics on an empty value list. *)
Fixpoint echo_headers (h : http.Header) (keys : list string)
    (b : ByteWriter) : result ByteWriter :=
  match keys with
  | [] => mret b
  | key :: keys' =>
      value ← match default [] (h !! key) with
              | v :: _ => Ok v
              | [] => Panicked index_out_of_range
              end;
      b' ← Fprintf_header b key value;
      echo_headers h keys' b'
  end.

(** The body of the response, lines 160 to 175. *)
Definition write_content (print_headers : bool)
    (then_header now_header : string) (r : http.Request)
    : result ByteWriter :=
  b ← Fprintln Buffy ["Content date:"; then_header];
  b ← Fprintln b ["Generated:   "; now_header];
  if print_headers then
    b ← Fprintln b [newline +:+ "REQUEST HEADERS:"];
    echo_headers (http.ReqHeader r) (sorted_keys (http.ReqHeader r)) b
  else mret b.

(** The loop that copies the custom headers into the response, lines 178
    to 180. *)
Definition copy_headers (w : ResponseWriter) (headers : gmap string string)
    : ResponseWriter :=
  map_fold (fun key val w => w_Set w key val) w headers.

(** [handle(w, r)] run at the instant [now] (the value of
    [time.Now().UTC()]) on a fresh response writer. *)
Definition handle (now : time.Time) (r : http.Request)
    : result http.Response :=
  let w := new_writer in
  if negb (String.eqb (http.Method r) "GET") then
    mret (response_of (respond w 405 "Only GET requests supported"))
  else
  let print_headers := negb (strings_Index (http.URL_Path r) "/headers/" =? -1) in
  let use_etags := negb (strings_Index (http.URL_Path r) "/etag/" =? -1) in
  let use_lastmod := negb (strings_Index (http.URL_Path r) "/lastmod/" =? -1) in
  let be_static := negb (strings_Index (http.URL_Path r) "/static/" =? -1) in
  let now_header := time.Format_RFC1123Z now in
  let then_ := content_time granularity_in_seconds be_static now in
  let then_header := time.Format_RFC1123Z then_ in
  let headers : gmap string string := ∅ in
  match validate_etags use_etags then_ r w headers with
  | Returned w' => mret (response_of w')
  | Continue headers =>
  match validate_since use_lastmod then_header r w headers with
  | Returned w' => mret (response_of w')
  | Continue headers =>
  let w := w_Set w "Content-Type" "text/plain; charset=utf-8" in
  if String.eqb (http.URL_Path r) "/" then
    let w := w_Set w "Content-Length" (strconv_Itoa (len help_text)) in
    mret (response_of (w_Fprint w help_text))
  else
  b ← write_content print_headers then_header now_header r;
  let w := copy_headers w headers in
  let content := AsString b in
  let w := w_Set w "Content-Length" (strconv_Itoa (len content)) in
  let w := respond w 200 "" in
  mret (response_of (w_Fprint w content))
  end end.

(** ** The request builders of the test harness *)

(** [MakeReq(t, url)]: a GET for the path, with no header of its own.
    The headers that the transport adds when the request is sent (user
    agent, accepted encodings) are not modelled. *)
Definition MakeReq (url : string) : http.Request :=
  http.mkRequest "GET" url ∅.

Definition add_header (r : http.Request) (key value : string) : http.Request :=
  http.mkRequest (http.Method r) (http.URL_Path r)
    (http.Add (http.ReqHeader r) key value).

(** [ETagV.Build]: the pair (modded, same) made from the response [resp]
    to a request for [path]. *)
Definition ETagV_Build (path : string) (resp : http.Response)
    : http.Request * http.Request :=
  let modded := MakeReq path in
  let same := MakeReq path in
  (add_header modded "If-None-Match" (http.Get (http.RespHeader resp) "ETag"),
   add_header same "If-Match" (http.Get (http.RespHeader resp) "ETag")).

(** [DateModV.Build]. *)
Definition DateModV_Build (path : string) (resp : http.Response)
    : http.Request * http.Request :=
  let modded := MakeReq path in
  let same := MakeReq path in
  (add_header modded "If-Modified-Since"
     (http.Get (http.RespHeader resp) "Last-Modified"),
   add_header same "If-Unmodified-Since"
     (http.Get (http.RespHeader resp) "Last-Modified")).

(** The request sent by [ClockU.Update]: [MakeReq] with the method set to
    PUT. *)
Definition ClockU_request (path : string) : http.Request :=
  http.mkRequest "PUT" path ∅.

(** ** Vocabulary of the specification, in terms of the handler *)

(** The path flags, as [handle] computes them. *)
Definition print_headers_of (r : http.Request) : bool :=
  negb (strings_Index (http.URL_Path r) "/headers/" =? -1).
Definition use_etags_of (r : http.Request) : bool :=
  negb (strings_Index (http.URL_Path r) "/etag/" =? -1).
Definition use_lastmod_of (r : http.Request) : bool :=
  negb (strings_Index (http.URL_Path r) "/lastmod/" =? -1).
Definition be_static_of (r : http.Request) : bool :=
  negb (strings_Index (http.URL_Path r) "/static/" =? -1).

(** The current version of the resource named by [r] at the instant [now],
    its quoted tag and its formatted timestamp. *)
Definition current_version (now : time.Time) (r : http.Request) : time.Time :=
  content_time granularity_in_seconds (be_static_of r) now.
Definition current_etag (now : time.Time) (r : http.Request) : string :=
  dquote +:+ time.Format_etag (current_version now r) +:+ dquote.
Definition current_lastmod (now : time.Time) (r : http.Request) : string :=
  time.Format_RFC1123Z (current_version now r).

(** The two checks of [handle] in sequence, on a fresh writer. *)
Definition validate (now : time.Time) (r : http.Request) : checked :=
  match validate_etags (use_etags_of r) (current_version now r) r
          new_writer ∅ with
  | Returned w => Returned w
  | Continue headers =>
      validate_since (use_lastmod_of r) (current_lastmod now r) r
        new_writer headers
  end.

(** The bytes written so far, and the invariant of a buffer in use. *)
Definition written (b : ByteWriter) : list Byte.byte :=
  take (Z.to_nat (pos b)) (buf b).

Definition buffer_ok (b : ByteWriter) : Prop := 0 <= pos b <= cap b.

(** A run of [Write] calls on one buffer, as one response makes them. *)
Fixpoint write_all (b : ByteWriter) (chunks : list (list Byte.byte))
    : result ByteWriter :=
  match chunks with
  | [] => mret b
  | bs :: chunks' => r ← Write b bs; write_all r.1 chunks'
  end.

(** The strings that [write_content] passes to [Write], one per call, when
    every request header has a value. *)
Definition header_line (h : http.Header) (key : string) : string :=
  "  " +:+ key +:+ ": " +:+ default "" (head (default [] (h !! key)))
  +:+ newline.

Definition content_chunks (print_headers : bool)
    (then_header now_header : string) (h : http.Header) : list string :=
  [ "Content date: " +:+ then_header +:+ newline;
    "Generated:    " +:+ now_header +:+ newline ] ++
  (if print_headers
   then (newline +:+ "REQUEST HEADERS:" +:+ newline)
        :: map (header_line h) (sorted_keys h)
   else []).

(** Every header of a parsed request has at least one value. *)
Definition header_has_values (h : http.Header) : Prop :=
  forall key vs, h !! key = Some vs -> vs <> [].

(** The generated body: the chunks in order. *)
Definition content_text (print_headers : bool)
    (then_header now_header : string) (h : http.Header) : string :=
  String.concat "" (content_chunks print_headers then_header now_header h).

(** The custom headers a request that passes both checks has collected. *)
Definition custom_headers (use_etags use_lastmod : bool)
    (etag_enc then_header : string) : gmap string string :=
  let headers : gmap string string := ∅ in
  let headers := if use_etags then <["E-Tag" := etag_enc]> headers
                 else headers in
  if use_lastmod then <["Last-Modified" := then_header]> headers
  else headers.

(** The header map of the 200 answer for those custom headers. *)
Definition full_header (use_etags use_lastmod : bool)
    (etag_enc then_header content_length : string) : http.Header :=
  let h : http.Header :=
    {[ "Content-Type" := ["text/plain; charset=utf-8"] ]} in
  let h := if use_etags then <["E-Tag" := [etag_enc]]> h else h in
  let h := if use_lastmod then <["Last-Modified" := [then_header]]> h else h in
  <["Content-Length" := [content_length]]> h.

(** The request headers that carry preconditions. *)
Definition if_match (r : http.Request) : string :=
  http.Get (http.ReqHeader r) "If-Match".
Definition if_none_match (r : http.Request) : string :=
  http.Get (http.ReqHeader r) "If-None-Match".
Definition if_unmodified_since (r : http.Request) : string :=
  http.Get (http.ReqHeader r) "If-Unmodified-Since".
Definition if_modified_since (r : http.Request) : string :=
  http.Get (http.ReqHeader r) "If-Modified-Since".

(** No ETag check stops the request: steps 1 and 2 of the evaluation
    order let it through. *)
Definition etag_checks_pass (now : time.Time) (r : http.Request) : Prop :=
  use_etags_of r = true ->
  (if_match r = "" \/ if_match r = current_etag now r) /\
  if_none_match r <> current_etag now r.

(** Step 3 lets the request through. *)
Definition unmodified_since_passes (now : time.Time) (r : http.Request)
    : Prop :=
  if_unmodified_since r = "" \/ if_unmodified_since r = current_lastmod now r.

(** Concrete inputs used in the examples. *)
Definition instant_a : time.Time := time.mkTime 2026 11 1 10 30 47 123.
Definition instant_b : time.Time := time.mkTime 2026 11 1 10 30 52 999.
Definition instant_c : time.Time := time.mkTime 2026 11 1 10 31 2 5.

Fixpoint filler (n : nat) : string :=
  match n with
  | O => EmptyString
  | S n' => String (Ascii.ascii_of_nat 97) (filler n')
  end.

(** The summed length of the chunks of a body. *)
Definition total_len (chunks : list string) : Z :=
  foldr (fun c n => len c + n) 0 chunks.

(** A request for a headers-echoing path with one oversized header. *)
Definition oversized_request : http.Request :=
  add_header (MakeReq "/headers/big/") "X-Padding" (filler 5000).

(** Requests with contradictory preconditions. *)
Definition stale_if_match_request : http.Request :=
  add_header
    (add_header
       (add_header
          (add_header (MakeReq "/static/etag/lastmod/doc/")
             "If-Match" (dquote +:+ "other" +:+ dquote))
          "If-None-Match" (dquote +:+ "2012-12-20,20:12:12" +:+ dquote))
       "If-Modified-Since" "Thu, 20 Dec 2012 20:12:12 +0000")
    "If-Unmodified-Since" "Thu, 20 Dec 2012 20:12:12 +0000".

Definition none_match_and_dates_request : http.Request :=
  add_header
    (add_header
       (add_header (MakeReq "/static/etag/lastmod/doc/")
          "If-None-Match" (dquote +:+ "2012-12-20,20:12:12" +:+ dquote))
       "If-Modified-Since" "Thu, 20 Dec 2012 20:12:12 +0000")
    "If-Unmodified-Since" "Wed, 19 Dec 2012 00:00:00 +0000".

(** The fixed answers of the handler. *)
Definition error_response (code : Z) (message : string) : http.Response :=
  http.mkResponse code
    (<["X-Content-Type-Options" := ["nosniff"]]>
       (<["Content-Type" := ["text/plain; charset=utf-8"]]> ∅))
    (if http.bodyAllowedForStatus code then message +:+ newline else "").

(** The 200 answer built from the custom headers and the buffered
    content, lines 148 and 177 to 186. *)
Definition full_response (headers : gmap string string) (content : string)
    : http.Response :=
  let w := w_Set new_writer "Content-Type" "text/plain; charset=utf-8" in
  let w := copy_headers w headers in
  let w := w_Set w "Content-Length" (strconv_Itoa (len content)) in
  response_of (w_Fprint (respond w 200 "") content).

(** The answer for the path [/]. *)
Definition help_response : http.Response :=
  let w := w_Set new_writer "Content-Type" "text/plain; charset=utf-8" in
  let w := w_Set w "Content-Length" (strconv_Itoa (len help_text)) in
  response_of (w_Fprint w help_text).

(** ** The body comparison of the test harness *)

(** [strings.Split(s, sep)] for a separator of one byte: the pieces between
    the separators, in order; never an empty list. *)
Fixpoint split_on (sep : Ascii.ascii) (s : string) : list string :=
  match s with
  | EmptyString => [EmptyString]
  | String c s' =>
      if Ascii.eqb c sep then EmptyString :: split_on sep s'
      else match split_on sep s' with
           | piece :: pieces => String c piece :: pieces
           | [] => [String c EmptyString]
           end
  end.

(** [strings.Split(body, "\n")[0]]. *)
Definition first_line (body : string) : string :=
  default "" (head (split_on (Ascii.ascii_of_nat 10) body)).

(** The end of a test function: it ran through, or [t.Fatal] stopped it
    with a message. *)
Inductive verdict : Type :=
  | Passed
  | Fatal (message : string).

(** [CompareBodies(t, body1, body2, same, identical)]. *)
Definition CompareBodies (body1 body2 : string) (same identical : bool)
    : verdict :=
  let line1 := first_line body1 in
  let line2 := first_line body2 in
  if same && negb (String.eqb line1 line2) then
    Fatal "First lines of requests are different, expected to be same."
  else if negb same && String.eqb line1 line2 then
    Fatal "First line of request bodies are identical, expected differences."
  else if identical && negb (String.eqb body1 body2) then
    Fatal "Request bodies are not the same, expected to be identical."
  else if negb identical && String.eqb body1 body2 then
    Fatal "Request bodies are identical, expected differences."
  else Passed.

(** A string without a line break. *)
Fixpoint single_line (s : string) : bool :=
  match s with
  | EmptyString => true
  | String c s' => negb (Ascii.eqb c (Ascii.ascii_of_nat 10)) && single_line s'
  end.

(** Calendar fields that render in the fixed widths of the layouts. *)
Definition four_digit_year (t : time.Time) : Prop := 0 <= time.Year t <= 9999.

(** More concrete inputs for the examples. *)
Definition next_bucket : time.Time := time.mkTime 2026 11 1 10 31 2 5.

Definition all_flags_request : http.Request :=
  add_header (add_header (MakeReq "/a/headers/lastmod/b/etag/static/")
                "Zeta" "last") "alpha" "first".

(** The two-digit and four-digit renderings, digit by digit. *)
Definition two_digits (x : Z) : string :=
  String (digit_char (x / 10)) (String (digit_char (x mod 10)) EmptyString).

Definition four_digits (x : Z) : string :=
  String (digit_char (x / 1000))
    (String (digit_char (x / 100 mod 10))
       (String (digit_char (x / 10 mod 10))
          (String (digit_char (x mod 10)) EmptyString))).

(** Requests with a wildcard If-None-Match. *)
Definition wildcard_none_match_request : http.Request :=
  add_header
    (add_header (MakeReq "/static/etag/lastmod/doc/") "If-None-Match" "*")
    "If-Unmodified-Since" "Wed, 19 Dec 2012 00:00:00 +0000".

Definition wildcard_none_match_etag_only : http.Request :=
  add_header (MakeReq "/static/etag/doc/") "If-None-Match" "*".

(** * Properties *)

(** ** Sanity checks of the rendering functions *)

Example appendInt_7_2 : appendInt 7 2 = "07".
Proof. reflexivity. Qed.

Example appendInt_2012_4 : appendInt 2012 4 = "2012".
Proof. reflexivity. Qed.

Example Itoa_4096 : strconv_Itoa 4096 = "4096".
Proof. reflexivity. Qed.

Example format_sentinel :
  time.Format_RFC1123Z (time.Date 2012 12 20 20 12 12 0)
  = "Thu, 20 Dec 2012 20:12:12 +0000".
Proof. reflexivity. Qed.

Example format_epoch :
  time.Format_RFC1123Z (time.Date 1970 1 1 0 0 0 0)
  = "Thu, 01 Jan 1970 00:00:00 +0000".
Proof. reflexivity. Qed.

Example format_leap_day :
  time.Format_RFC1123Z (time.Date 2024 2 29 23 59 59 0)
  = "Thu, 29 Feb 2024 23:59:59 +0000".
Proof. reflexivity. Qed.

Example canonical_ETag : http.CanonicalMIMEHeaderKey "ETag" = "Etag".
Proof. reflexivity. Qed.

Example canonical_E_Tag : http.CanonicalMIMEHeaderKey "E-Tag" = "E-Tag".
Proof. reflexivity. Qed.

Example canonical_lower :
  http.CanonicalMIMEHeaderKey "if-modified-since" = "If-Modified-Since".
Proof. reflexivity. Qed.

(** ** The shape of [handle] *)

Lemma handle_not_GET (now : time.Time) (r : http.Request) :
  http.Method r <> "GET" ->
  handle now r = Ok (error_response 405 "Only GET requests supported").
Proof.
  intros Hm. unfold handle.
  destruct (String.eqb_spec (http.Method r) "GET") as [E | _]; [done |].
  reflexivity.
Qed.

Lemma handle_GET (now : time.Time) (r : http.Request) :
  http.Method r = "GET" ->
  handle now r =
    match validate now r with
    | Returned w' => Ok (response_of w')
    | Continue headers =>
        if String.eqb (http.URL_Path r) "/" then Ok help_response
        else
          b ← write_content (print_headers_of r) (current_lastmod now r)
                (time.Format_RFC1123Z now) r;
          Ok (full_response headers (AsString b))
    end.
Proof.
  intros Hm. unfold handle, validate. rewrite Hm. simpl negb. cbv iota.
  fold (use_etags_of r) (use_lastmod_of r) (be_static_of r)
       (print_headers_of r).
  fold (current_version now r). fold (current_lastmod now r).
  destruct (validate_etags _ _ _ _ _); [done |].
  destruct (validate_since _ _ _ _ _); done.
Qed.

(** ** The response buffer *)

Lemma Buffy_ok : buffer_ok Buffy /\ cap Buffy = 4096 /\ written Buffy = [].
Proof.
  unfold buffer_ok, cap, written, Buffy; cbn [pos buf].
  rewrite length_replicate. repeat split; lia.
Qed.

Lemma Write_fits (s : ByteWriter) (bs : list Byte.byte) :
  buffer_ok s ->
  pos s + Z.of_nat (length bs) <= cap s ->
  exists s',
    Write s bs = Ok (s', Z.of_nat (length bs)) /\
    buffer_ok s' /\ cap s' = cap s /\
    pos s' = pos s + Z.of_nat (length bs) /\
    written s' = written s ++ bs.
Proof.
  intros [Hlo Hhi] Hfit. unfold Write, copy_into_slice, cap in *.
  set (n := Z.of_nat (length bs)) in *.
  assert (Hcond : (0 <=? pos s) && (pos s <=? pos s + n)
                  && (pos s + n <=? Z.of_nat (length (buf s))) = true).
  { rewrite !andb_true_iff, !Z.leb_le. lia. }
  rewrite Hcond. simpl.
  replace (pos s + n - pos s) with n by lia.
  assert (Htake : take (Z.to_nat n) bs = bs).
  { apply take_ge. lia. }
  rewrite Htake.
  assert (Hlen : length (take (Z.to_nat (pos s)) (buf s)) = Z.to_nat (pos s)).
  { rewrite length_take. lia. }
  eexists. split; [reflexivity |].
  unfold buffer_ok, cap, written. simpl.
  rewrite !length_app, Hlen, length_drop.
  repeat split; try lia.
  replace (Z.to_nat (pos s + n)) with (Z.to_nat (pos s) + length bs)%nat by lia.
  rewrite app_assoc, take_app_length'; [done |].
  rewrite length_app, Hlen. lia.
Qed.

Lemma Write_overflow (s : ByteWriter) (bs : list Byte.byte) :
  cap s < pos s + Z.of_nat (length bs) ->
  Write s bs = Panicked slice_bounds_out_of_range.
Proof.
  intros Hover. unfold Write, copy_into_slice, cap in *.
  assert (Hcond : (pos s + Z.of_nat (length bs)
                   <=? Z.of_nat (length (buf s))) = false).
  { apply Z.leb_gt. lia. }
  rewrite Hcond, andb_false_r. reflexivity.
Qed.

Lemma write_all_fits (chunks : list (list Byte.byte)) :
  forall b : ByteWriter,
  buffer_ok b ->
  pos b + Z.of_nat (length (concat chunks)) <= cap b ->
  exists b',
    write_all b chunks = Ok b' /\
    buffer_ok b' /\ cap b' = cap b /\
    pos b' = pos b + Z.of_nat (length (concat chunks)) /\
    written b' = written b ++ concat chunks.
Proof.
  induction chunks as [| bs chunks IH]; intros b Hok Hfit; simpl in *.
  - exists b. rewrite app_nil_r. split_and!; try done; lia.
  - rewrite length_app in Hfit.
    destruct (Write_fits b bs Hok) as (s' & HW & Hok' & Hcap & Hpos & Hwr);
      [lia |].
    rewrite HW. simpl.
    destruct (IH s' Hok') as (b' & Hall & Hok'' & Hcap' & Hpos' & Hwr');
      [lia |].
    exists b'. rewrite Hall, Hwr', Hwr, length_app, app_assoc.
    split_and!; try done; lia.
Qed.

Lemma write_all_overflow (chunks : list (list Byte.byte)) :
  forall b : ByteWriter,
  buffer_ok b ->
  cap b < pos b + Z.of_nat (length (concat chunks)) ->
  write_all b chunks = Panicked slice_bounds_out_of_range.
Proof.
  induction chunks as [| bs chunks IH]; intros b Hok Hover; simpl in *.
  - unfold buffer_ok in Hok. lia.
  - rewrite length_app in Hover.
    destruct (Z_lt_le_dec (cap b) (pos b + Z.of_nat (length bs))) as [Hbs | Hbs].
    + rewrite Write_overflow by done. reflexivity.
    + destruct (Write_fits b bs Hok Hbs) as (s' & HW & Hok' & Hcap & Hpos & _).
      rewrite HW. simpl. apply IH; [done | lia].
Qed.

Lemma AsString_written (b : ByteWriter) :
  AsString b = String.string_of_list_byte (written b).
Proof. reflexivity. Qed.

(** ** Strings as bytes *)

Lemma list_byte_of_string_app (a b : string) :
  String.list_byte_of_string (a +:+ b)
  = String.list_byte_of_string a ++ String.list_byte_of_string b.
Proof.
  unfold String.list_byte_of_string.
  induction a as [| c a IH]; simpl; [done |]. by rewrite IH.
Qed.

Lemma length_list_byte_of_string (s : string) :
  length (String.list_byte_of_string s) = String.length s.
Proof.
  unfold String.list_byte_of_string.
  induction s as [| c s IH]; simpl; [done |]. by rewrite IH.
Qed.

Lemma bytes_of_chunks (chunks : list string) :
  concat (map String.list_byte_of_string chunks)
  = String.list_byte_of_string (String.concat "" chunks).
Proof.
  induction chunks as [| c chunks IH]; [done |].
  destruct chunks as [| c' chunks].
  - simpl. by rewrite app_nil_r.
  - change (String.concat "" (c :: c' :: chunks))
      with (c +:+ "" +:+ String.concat "" (c' :: chunks)).
    change (concat (map String.list_byte_of_string (c :: c' :: chunks)))
      with (String.list_byte_of_string c
            ++ concat (map String.list_byte_of_string (c' :: chunks))).
    rewrite IH. simpl String.append at 2.
    by rewrite list_byte_of_string_app.
Qed.

(** ** The content as a run of writes *)

Lemma sorted_keys_lookup (h : http.Header) (key : string) :
  key ∈ sorted_keys h -> exists vs, h !! key = Some vs.
Proof.
  unfold sorted_keys. rewrite merge_sort_Permutation.
  intros Hin. apply list_elem_of_fmap in Hin as ([k vs] & -> & Hin).
  apply elem_of_map_to_list in Hin. by exists vs.
Qed.

Lemma echo_headers_write_all (h : http.Header) (keys : list string) :
  header_has_values h ->
  (forall key, key ∈ keys -> exists vs, h !! key = Some vs) ->
  forall b : ByteWriter,
  echo_headers h keys b
  = write_all b (map String.list_byte_of_string (map (header_line h) keys)).
Proof.
  intros Hvals. induction keys as [| key keys IH]; intros Hkeys b; [done |].
  destruct (Hkeys key) as [vs Hvs]; [left |].
  cbn [echo_headers map]. unfold header_line at 1. rewrite Hvs. simpl default.
  destruct vs as [| v vs]; [by apply Hvals in Hvs |].
  simpl. unfold Fprintf_header, Fprint.
  destruct (Write b _) as [[s' n] | p]; simpl; [| done].
  apply IH. intros k Hk. apply Hkeys. by right.
Qed.

Lemma write_content_write_all (print_headers : bool)
    (then_header now_header : string) (r : http.Request) :
  (print_headers = true -> header_has_values (http.ReqHeader r)) ->
  write_content print_headers then_header now_header r
  = write_all Buffy
      (map String.list_byte_of_string
         (content_chunks print_headers then_header now_header
            (http.ReqHeader r))).
Proof.
  intros Hvals. unfold write_content, content_chunks, Fprintln, Fprint.
  cbn [app map write_all String.concat].
  destruct (Write Buffy _) as [[b1 n1] | p]; simpl; [| done].
  destruct (Write b1 _) as [[b2 n2] | p]; simpl; [| done].
  destruct print_headers; [| done].
  cbn [map write_all].
  destruct (Write b2 _) as [[b3 n3] | p]; simpl; [| done].
  apply echo_headers_write_all; [by apply Hvals |]. apply sorted_keys_lookup.
Qed.

(** ** The 200 answer *)

Lemma copy_headers_status_body (w : ResponseWriter)
    (headers : gmap string string) :
  w_status (copy_headers w headers) = w_status w /\
  w_body (copy_headers w headers) = w_body w.
Proof.
  unfold copy_headers.
  apply (map_fold_weak_ind
           (fun r _ => w_status r = w_status w /\ w_body r = w_body w));
    [done |].
  intros key v m r _ IH. exact IH.
Qed.

Lemma full_response_status (headers : gmap string string) (content : string) :
  http.StatusCode (full_response headers content) = 200.
Proof.
  unfold full_response, respond, w_Fprint, WriteHeader. simpl.
  destruct (copy_headers_status_body
              (w_Set new_writer "Content-Type" "text/plain; charset=utf-8")
              headers) as [-> _].
  reflexivity.
Qed.

Lemma full_response_body (headers : gmap string string) (content : string) :
  http.Body (full_response headers content) = content.
Proof.
  unfold full_response, respond, w_Fprint, WriteHeader. simpl.
  destruct (copy_headers_status_body
              (w_Set new_writer "Content-Type" "text/plain; charset=utf-8")
              headers) as [-> Hb].
  simpl. rewrite Hb. reflexivity.
Qed.

Lemma full_response_header (use_etags use_lastmod : bool)
    (etag_enc then_header content : string) :
  http.RespHeader
    (full_response (custom_headers use_etags use_lastmod etag_enc then_header)
       content)
  = full_header use_etags use_lastmod etag_enc then_header
      (strconv_Itoa (len content)).
Proof.
  unfold full_response, respond, w_Fprint, WriteHeader. simpl.
  destruct (copy_headers_status_body
              (w_Set new_writer "Content-Type" "text/plain; charset=utf-8")
              (custom_headers use_etags use_lastmod etag_enc then_header))
    as [-> _].
  simpl. generalize (strconv_Itoa (len content)) as n. intros n.
  destruct use_etags, use_lastmod; vm_compute; reflexivity.
Qed.

(** ** Lengths of the rendered strings *)

Lemma length_append (a b : string) :
  String.length (a +:+ b) = (String.length a + String.length b)%nat.
Proof. induction a as [| c a IH]; simpl; [done |]. by rewrite IH. Qed.

Lemma len_append (a b : string) : len (a +:+ b) = len a + len b.
Proof. unfold len. rewrite length_append. lia. Qed.

Lemma len_nonneg (s : string) : 0 <= len s.
Proof. unfold len. lia. Qed.

Lemma len_positive_iff (s : string) : (0 <? len s) = negb (String.eqb s "").
Proof. destruct s; reflexivity. Qed.

Lemma length_zeros (n : nat) : String.length (zeros n) = n.
Proof. induction n as [| n IH]; simpl; [done |]. by rewrite IH. Qed.

Lemma length_decimal_digits (fuel : nat) :
  forall (u : Z) (acc : string),
  (String.length (decimal_digits fuel u acc) <= fuel + String.length acc)%nat.
Proof.
  induction fuel as [| fuel IH]; intros u acc; simpl; [lia |].
  destruct (10 <=? u).
  - etrans; [apply IH |]. simpl. lia.
  - simpl. lia.
Qed.

Lemma len_appendInt (x : Z) (width : nat) :
  (width <= 20)%nat -> len (appendInt x width) <= 21.
Proof.
  intros Hw. unfold appendInt.
  pose proof (length_decimal_digits 20 (Z.abs x) EmptyString) as Hds.
  revert Hds. generalize (decimal_digits 20 (Z.abs x) EmptyString) as ds.
  intros ds Hds. change (String.length EmptyString) with 0%nat in Hds.
  rewrite !len_append. unfold len at 2. rewrite length_zeros.
  assert (Hsign : 0 <= len (if x <? 0 then "-" else "") <= 1).
  { destruct (x <? 0); vm_compute; split; discriminate. }
  unfold len at 2. lia.
Qed.

Lemma len_weekday_abbrev (w : Z) : len (time.weekday_abbrev w) = 3.
Proof.
  unfold time.weekday_abbrev.
  repeat (match goal with |- context [match ?x with _ => _ end] =>
            destruct x end; try reflexivity).
Qed.

Lemma len_month_abbrev (m : Z) : len (time.month_abbrev m) = 3.
Proof.
  unfold time.month_abbrev.
  repeat (match goal with |- context [match ?x with _ => _ end] =>
            destruct x end; try reflexivity).
Qed.

Lemma len_Format_RFC1123Z (t : time.Time) : len (time.Format_RFC1123Z t) <= 124.
Proof.
  unfold time.Format_RFC1123Z, time.clock. rewrite !len_append.
  rewrite len_weekday_abbrev, len_month_abbrev.
  pose proof (len_appendInt (time.Day t) 2).
  pose proof (len_appendInt (time.Year t) 4).
  pose proof (len_appendInt (time.Hour t) 2).
  pose proof (len_appendInt (time.Minute t) 2).
  pose proof (len_appendInt (time.Second t) 2).
  change (len ", ") with 2. change (len " ") with 1.
  change (len ":") with 1. change (len " +0000") with 6.
  lia.
Qed.

(** The quoted tag is never the quoted wildcard, nor empty. *)
Lemma etag_enc_not_star (t : time.Time) :
  String.eqb (dquote +:+ time.Format_etag t +:+ dquote)
             (dquote +:+ "*" +:+ dquote) = false.
Proof.
  apply String.eqb_neq. intros E.
  apply (f_equal len) in E. rewrite !len_append in E.
  unfold time.Format_etag, time.clock in E. rewrite !len_append in E.
  change (len "-") with 1 in E. change (len ",") with 1 in E.
  change (len ":") with 1 in E. change (len "*") with 1 in E.
  pose proof (len_nonneg (appendInt (time.Year t) 4)).
  pose proof (len_nonneg (appendInt (time.Month t) 2)).
  pose proof (len_nonneg (appendInt (time.Day t) 2)).
  pose proof (len_nonneg (appendInt (time.Hour t) 2)).
  pose proof (len_nonneg (appendInt (time.Minute t) 2)).
  pose proof (len_nonneg (appendInt (time.Second t) 2)).
  lia.
Qed.

(** ** The two checks *)

Lemma respond_error (code : Z) (message : string) :
  message <> "" ->
  response_of (respond new_writer code message) = error_response code message.
Proof.
  intros Hm. unfold respond.
  destruct (String.eqb_spec message "") as [E | _]; [done |].
  unfold error_response, http_Error, w_Fprint, WriteHeader, response_of.
  simpl. destruct (http.bodyAllowedForStatus code); reflexivity.
Qed.

Lemma validate_if_match_fails (now : time.Time) (r : http.Request) :
  use_etags_of r = true ->
  if_match r <> "" ->
  if_match r <> current_etag now r ->
  validate now r
  = Returned (respond new_writer 412 "If-Match failed: ETag did not match").
Proof.
  intros He Hne Hdiff. unfold validate, validate_etags. rewrite He.
  fold (if_match r). fold (current_etag now r).
  unfold current_etag at 1. rewrite etag_enc_not_star.
  fold (current_etag now r).
  rewrite len_positive_iff.
  destruct (String.eqb_spec (if_match r) "") as [E | _]; [done |].
  destruct (String.eqb_spec (current_etag now r) (if_match r)) as [E | _];
    [by symmetry in E |].
  reflexivity.
Qed.

Lemma validate_if_none_match_hits (now : time.Time) (r : http.Request) :
  use_etags_of r = true ->
  if_match r = "" \/ if_match r = current_etag now r ->
  if_none_match r = current_etag now r ->
  validate now r
  = Returned (respond new_writer 304 "Content matches on If-None-Match").
Proof.
  intros He Him Hinm. unfold validate, validate_etags. rewrite He.
  fold (if_match r) (if_none_match r). fold (current_etag now r).
  unfold current_etag at 1 3. rewrite etag_enc_not_star.
  fold (current_etag now r).
  rewrite !len_positive_iff, Hinm, String.eqb_refl.
  assert (Hpass : negb (String.eqb (if_match r) "")
                  && negb (false || String.eqb (current_etag now r) (if_match r))
                  = false).
  { destruct Him as [-> | ->]; [done |].
    rewrite String.eqb_refl. apply andb_false_r. }
  rewrite Hpass. reflexivity.
Qed.

Lemma validate_etags_passes (now : time.Time) (r : http.Request) :
  etag_checks_pass now r ->
  validate_etags (use_etags_of r) (current_version now r) r new_writer ∅
  = Continue (custom_headers (use_etags_of r) false (current_etag now r) "").
Proof.
  unfold etag_checks_pass, validate_etags. intros Hpass.
  destruct (use_etags_of r); [| done].
  destruct Hpass as [Him Hinm]; [done |].
  fold (if_match r) (if_none_match r). fold (current_etag now r).
  unfold current_etag at 1 3. rewrite etag_enc_not_star.
  fold (current_etag now r).
  assert (H1 : (0 <? len (if_match r))
               && negb (false || String.eqb (current_etag now r) (if_match r))
               = false).
  { destruct Him as [-> | ->]; [done |].
    rewrite String.eqb_refl. apply andb_false_r. }
  rewrite H1.
  destruct (String.eqb_spec (current_etag now r) (if_none_match r)) as [E | _];
    [by symmetry in E |].
  rewrite andb_false_r. reflexivity.
Qed.

Lemma validate_unmodified_since_fails (now : time.Time) (r : http.Request) :
  etag_checks_pass now r ->
  use_lastmod_of r = true ->
  if_unmodified_since r <> "" ->
  if_unmodified_since r <> current_lastmod now r ->
  validate now r = Returned (respond new_writer 412 "Document has been modified").
Proof.
  intros Hpass Hl Hne Hdiff. unfold validate.
  rewrite (validate_etags_passes now r Hpass).
  unfold validate_since. rewrite Hl. fold (if_unmodified_since r).
  rewrite len_positive_iff.
  destruct (String.eqb_spec (if_unmodified_since r) "") as [E | _]; [done |].
  destruct (String.eqb_spec (if_unmodified_since r) (current_lastmod now r))
    as [E | _]; [done |].
  reflexivity.
Qed.

Lemma validate_modified_since_differs (now : time.Time) (r : http.Request) :
  etag_checks_pass now r ->
  use_lastmod_of r = true ->
  unmodified_since_passes now r ->
  if_modified_since r <> "" ->
  if_modified_since r <> current_lastmod now r ->
  validate now r
  = Returned (respond new_writer 304 "Document has not been modified").
Proof.
  intros Hpass Hl Hius Hne Hdiff. unfold validate.
  rewrite (validate_etags_passes now r Hpass).
  unfold validate_since. rewrite Hl.
  fold (if_unmodified_since r) (if_modified_since r).
  assert (H1 : (0 <? len (if_unmodified_since r))
               && negb (String.eqb (if_unmodified_since r)
                          (current_lastmod now r)) = false).
  { destruct Hius as [-> | ->]; [done |].
    rewrite String.eqb_refl. apply andb_false_r. }
  rewrite H1, len_positive_iff.
  destruct (String.eqb_spec (if_modified_since r) "") as [E | _]; [done |].
  destruct (String.eqb_spec (if_modified_since r) (current_lastmod now r))
    as [E | _]; [done |].
  reflexivity.
Qed.

Lemma validate_passes (now : time.Time) (r : http.Request) :
  etag_checks_pass now r ->
  unmodified_since_passes now r ->
  if_modified_since r = "" \/ if_modified_since r = current_lastmod now r ->
  validate now r
  = Continue (custom_headers (use_etags_of r) (use_lastmod_of r)
                (current_etag now r) (current_lastmod now r)).
Proof.
  intros Hpass Hius Hims. unfold validate.
  rewrite (validate_etags_passes now r Hpass).
  unfold validate_since.
  destruct (use_lastmod_of r); [| by destruct (use_etags_of r)].
  fold (if_unmodified_since r) (if_modified_since r).
  assert (H1 : (0 <? len (if_unmodified_since r))
               && negb (String.eqb (if_unmodified_since r)
                          (current_lastmod now r)) = false).
  { destruct Hius as [-> | ->]; [done |].
    rewrite String.eqb_refl. apply andb_false_r. }
  assert (H2 : (0 <? len (if_modified_since r))
               && negb (String.eqb (if_modified_since r)
                          (current_lastmod now r)) = false).
  { destruct Hims as [-> | ->]; [done |].
    rewrite String.eqb_refl. apply andb_false_r. }
  rewrite H1, H2. by destruct (use_etags_of r).
Qed.

Lemma handle_returned (now : time.Time) (r : http.Request)
    (code : Z) (message : string) :
  http.Method r = "GET" ->
  message <> "" ->
  validate now r = Returned (respond new_writer code message) ->
  handle now r = Ok (error_response code message).
Proof.
  intros Hm Hmsg Hv. rewrite (handle_GET now r Hm), Hv.
  by rewrite respond_error.
Qed.

(** ** The content and the buffer *)

Lemma write_content_fits (print_headers : bool)
    (then_header now_header : string) (r : http.Request) :
  (print_headers = true -> header_has_values (http.ReqHeader r)) ->
  len (content_text print_headers then_header now_header (http.ReqHeader r))
    <= 4096 ->
  exists b,
    write_content print_headers then_header now_header r = Ok b /\
    AsString b
    = content_text print_headers then_header now_header (http.ReqHeader r).
Proof.
  intros Hvals Hfit. rewrite write_content_write_all by done.
  destruct Buffy_ok as (Hok & Hcap & Hwr).
  set (chunks := content_chunks _ _ _ _) in *.
  destruct (write_all_fits (map String.list_byte_of_string chunks) Buffy Hok)
    as (b & Hall & _ & _ & _ & Hb).
  { rewrite Hcap, bytes_of_chunks, length_list_byte_of_string.
    unfold content_text, len in Hfit. fold chunks in Hfit.
    change (pos Buffy) with 0. lia. }
  exists b. split; [done |].
  rewrite AsString_written, Hb, Hwr, app_nil_l, bytes_of_chunks.
  apply String.string_of_list_byte_of_string.
Qed.

Lemma write_content_overflow (print_headers : bool)
    (then_header now_header : string) (r : http.Request) :
  (print_headers = true -> header_has_values (http.ReqHeader r)) ->
  4096 <
    len (content_text print_headers then_header now_header (http.ReqHeader r)) ->
  write_content print_headers then_header now_header r
  = Panicked slice_bounds_out_of_range.
Proof.
  intros Hvals Hover. rewrite write_content_write_all by done.
  destruct Buffy_ok as (Hok & Hcap & _).
  apply write_all_overflow; [done |].
  rewrite Hcap, bytes_of_chunks, length_list_byte_of_string.
  unfold content_text, len in Hover. change (pos Buffy) with 0. lia.
Qed.

Lemma handle_full (now : time.Time) (r : http.Request)
    (headers : gmap string string) :
  http.Method r = "GET" ->
  validate now r = Continue headers ->
  http.URL_Path r <> "/" ->
  (print_headers_of r = true -> header_has_values (http.ReqHeader r)) ->
  let text := content_text (print_headers_of r) (current_lastmod now r)
                (time.Format_RFC1123Z now) (http.ReqHeader r) in
  len text <= 4096 ->
  handle now r = Ok (full_response headers text).
Proof.
  intros Hm Hv Hp Hvals text Hfit. rewrite (handle_GET now r Hm), Hv.
  destruct (String.eqb_spec (http.URL_Path r) "/") as [E | _]; [done |].
  destruct (write_content_fits _ _ _ r Hvals Hfit) as (b & -> & Hb).
  simpl. by rewrite Hb.
Qed.

Lemma handle_overflow (now : time.Time) (r : http.Request)
    (headers : gmap string string) :
  http.Method r = "GET" ->
  validate now r = Continue headers ->
  http.URL_Path r <> "/" ->
  (print_headers_of r = true -> header_has_values (http.ReqHeader r)) ->
  4096 < len (content_text (print_headers_of r) (current_lastmod now r)
                (time.Format_RFC1123Z now) (http.ReqHeader r)) ->
  handle now r = Panicked slice_bounds_out_of_range.
Proof.
  intros Hm Hv Hp Hvals Hover. rewrite (handle_GET now r Hm), Hv.
  destruct (String.eqb_spec (http.URL_Path r) "/") as [E | _]; [done |].
  by rewrite (write_content_overflow _ _ _ r Hvals Hover).
Qed.

(** The statuses the handler can answer with. *)
Lemma validate_returned_shape (now : time.Time) (r : http.Request)
    (w : ResponseWriter) :
  validate now r = Returned w ->
  exists code message,
    w = respond new_writer code message /\ message <> "" /\
    (code = 412 \/ code = 304).
Proof.
  unfold validate, validate_etags, validate_since.
  repeat (match goal with
          | |- context [if ?c then _ else _] => destruct c
          end; try discriminate);
    intros [= <-]; eexists _, _; (split; [reflexivity |]); split;
    auto; discriminate.
Qed.

Lemma validate_returned (now : time.Time) (r : http.Request)
    (w : ResponseWriter) :
  validate now r = Returned w ->
  http.StatusCode (response_of w) = 412 \/ http.StatusCode (response_of w) = 304.
Proof.
  intros (code & message & -> & Hmsg & Hcode)%validate_returned_shape.
  by rewrite respond_error.
Qed.

Lemma validate_continue_shape (now : time.Time) (r : http.Request)
    (headers : gmap string string) :
  validate now r = Continue headers ->
  headers = custom_headers (use_etags_of r) (use_lastmod_of r)
              (current_etag now r) (current_lastmod now r).
Proof.
  unfold validate, validate_etags, validate_since, custom_headers.
  fold (current_etag now r).
  destruct (use_etags_of r), (use_lastmod_of r);
    repeat (match goal with
            | |- context [if ?c then _ else _] => destruct c
            end; try discriminate);
    by intros [= <-].
Qed.

Lemma handle_status (now : time.Time) (r : http.Request)
    (resp : http.Response) :
  handle now r = Ok resp ->
  http.StatusCode resp = 200 \/ http.StatusCode resp = 304 \/
  http.StatusCode resp = 405 \/ http.StatusCode resp = 412.
Proof.
  destruct (String.eqb_spec (http.Method r) "GET") as [Hm | Hm].
  - rewrite (handle_GET now r Hm).
    destruct (validate now r) as [w | headers] eqn:Hv.
    + intros [= <-]. destruct (validate_returned now r w Hv) as [-> | ->];
        auto.
    + destruct (String.eqb (http.URL_Path r) "/").
      * intros [= <-]. by left.
      * destruct (write_content _ _ _ _) as [b | p]; simpl; [| done].
        intros [= <-]. rewrite full_response_status. by left.
  - rewrite (handle_not_GET now r Hm). intros [= <-]. auto.
Qed.

(** * The claims *)

(** ** Methods other than GET *)

(** C6: every request whose method is not GET is answered 405 whatever its
    path, its headers and the time: the answer is one fixed response, with
    the fixed message as body and neither a validator header nor a
    Content-Length, so neither check ran and no content was generated. *)
Theorem non_GET_answers_405 (now : time.Time) (r : http.Request) :
  http.Method r <> "GET" ->
  exists resp,
    handle now r = Ok resp /\
    resp = error_response 405 "Only GET requests supported" /\
    http.StatusCode resp = 405 /\
    http.Body resp = "Only GET requests supported" +:+ newline /\
    http.RespHeader resp !! "E-Tag" = None /\
    http.RespHeader resp !! "Last-Modified" = None /\
    http.RespHeader resp !! "Content-Length" = None.
Proof.
  intros Hm. eexists. split; [by apply handle_not_GET |].
  split_and!; try reflexivity.
Qed.

Lemma non_GET_answers_405_witness :
  exists resp,
    handle instant_a
      (add_header (add_header (http.mkRequest "POST" "/etag/lastmod/x/" ∅)
                     "If-None-Match" "*") "If-Modified-Since" "yesterday")
    = Ok resp /\
    resp = error_response 405 "Only GET requests supported" /\
    http.StatusCode resp = 405 /\
    http.Body resp = "Only GET requests supported" +:+ newline /\
    http.RespHeader resp !! "E-Tag" = None /\
    http.RespHeader resp !! "Last-Modified" = None /\
    http.RespHeader resp !! "Content-Length" = None.
Proof.
  apply (non_GET_answers_405 instant_a). simpl. discriminate.
Defined.

(** C4, as stated, fails: the PUT of the explicit mutator is not answered
    204 with an empty body. *)
Lemma PUT_is_not_answered_204 :
  ~ (exists resp,
       handle instant_a (ClockU_request "/clock/etag/functest/") = Ok resp /\
       http.StatusCode resp = 204 /\ http.Body resp = "").
Proof.
  intros (resp & Hh & Hs & _).
  rewrite handle_not_GET in Hh by (simpl; discriminate).
  injection Hh as <-. discriminate Hs.
Qed.

(** C4, amended: a PUT is refused by the handler with status 405 and the
    message that only GET is supported, and no request at all is answered
    204. *)
Theorem PUT_answers_405 (now : time.Time) (r : http.Request) :
  http.Method r = "PUT" ->
  (exists resp,
     handle now r = Ok resp /\
     http.StatusCode resp = 405 /\
     http.Body resp = "Only GET requests supported" +:+ newline) /\
  (forall now' r' resp',
     handle now' r' = Ok resp' -> http.StatusCode resp' <> 204).
Proof.
  intros Hm. split.
  - exists (error_response 405 "Only GET requests supported").
    split; [| by split].
    apply handle_not_GET. rewrite Hm. discriminate.
  - intros now' r' resp' Hh E. apply handle_status in Hh. lia.
Qed.

Lemma PUT_answers_405_witness :
  (exists resp,
     handle instant_a (ClockU_request "/clock/lastmod/functest/") = Ok resp /\
     http.StatusCode resp = 405 /\
     http.Body resp = "Only GET requests supported" +:+ newline) /\
  (forall now' r' resp',
     handle now' r' = Ok resp' -> http.StatusCode resp' <> 204).
Proof.
  apply (PUT_answers_405 instant_a (ClockU_request "/clock/lastmod/functest/")).
  reflexivity.
Defined.

(** ** Paths without a flag *)

Lemma len_concat_chunks (chunks : list string) :
  len (String.concat "" chunks) = total_len chunks.
Proof.
  induction chunks as [| c chunks IH]; [done |].
  destruct chunks as [| c' chunks].
  - simpl. lia.
  - change (String.concat "" (c :: c' :: chunks))
      with (c +:+ "" +:+ String.concat "" (c' :: chunks)).
    rewrite !len_append, IH. change (len "") with 0.
    unfold total_len. simpl. lia.
Qed.

Lemma len_two_lines (now then_ : time.Time) (h : http.Header) :
  len (content_text false (time.Format_RFC1123Z then_)
         (time.Format_RFC1123Z now) h) <= 280.
Proof.
  unfold content_text. rewrite len_concat_chunks.
  unfold content_chunks, total_len. cbn [foldr app].
  rewrite !len_append.
  pose proof (len_Format_RFC1123Z now). pose proof (len_Format_RFC1123Z then_).
  change (len "Content date: ") with 14. change (len "Generated:    ") with 14.
  change (len newline) with 1. lia.
Qed.

Lemma validate_without_checks (now : time.Time) (r : http.Request) :
  use_etags_of r = false -> use_lastmod_of r = false ->
  validate now r = Continue ∅.
Proof.
  intros He Hl. unfold validate, validate_etags, validate_since.
  by rewrite He, Hl.
Qed.

(** C5, as stated, fails: the GET of the harness for a path without any
    flag is not answered 410. *)
Lemma unknown_path_is_not_answered_410 :
  ~ (exists resp,
       handle instant_a (MakeReq "/gosomewhere/notexpected/") = Ok resp /\
       http.StatusCode resp = 410).
Proof.
  intros (resp & Hh & Hs). vm_compute in Hh. injection Hh as <-.
  discriminate Hs.
Qed.

(** C5, amended: a GET for a path that carries none of the four flag
    segments is answered 200; unless the path is [/] (which gets the help
    text) the body is the content-date line and the generation line and
    the only headers are Content-Type and Content-Length.  No request at
    all is answered 410. *)
Theorem unflagged_GET_answers_200 (now : time.Time) (r : http.Request) :
  http.Method r = "GET" ->
  print_headers_of r = false -> use_etags_of r = false ->
  use_lastmod_of r = false -> be_static_of r = false ->
  (exists resp,
     handle now r = Ok resp /\
     http.StatusCode resp = 200 /\
     (http.URL_Path r = "/" -> http.Body resp = help_text) /\
     (http.URL_Path r <> "/" ->
      http.Body resp
      = ("Content date: " +:+ current_lastmod now r +:+ newline) +:+
        ("Generated:    " +:+ time.Format_RFC1123Z now +:+ newline) /\
      dom (http.RespHeader resp)
      = ({[ "Content-Type"; "Content-Length" ]} : gset string))) /\
  (forall now' r' resp',
     handle now' r' = Ok resp' -> http.StatusCode resp' <> 410).
Proof.
  intros Hm Hph He Hl Hs. split.
  - pose proof (validate_without_checks now r He Hl) as Hv.
    destruct (String.eqb_spec (http.URL_Path r) "/") as [Hp | Hp].
    + exists help_response. rewrite (handle_GET now r Hm), Hv, Hp.
      split_and!; done.
    + eexists. split.
      { apply (handle_full now r ∅ Hm Hv Hp).
        - rewrite Hph. discriminate.
        - rewrite Hph. pose proof (len_two_lines now (current_version now r)
                                     (http.ReqHeader r)) as Hlen.
          fold (current_lastmod now r) in Hlen. lia. }
      rewrite full_response_status, full_response_body, Hph.
      split_and!; [done | done |]. intros _. split; [done |].
      change (∅ : gmap string string) with (custom_headers false false "" "").
      rewrite full_response_header. unfold full_header.
      rewrite dom_insert_L, dom_singleton_L. set_solver.
  - intros now' r' resp' Hh E. apply handle_status in Hh. lia.
Qed.

Lemma unflagged_GET_answers_200_witness :
  (exists resp,
     handle instant_a (MakeReq "/nope/") = Ok resp /\
     http.StatusCode resp = 200 /\
     (http.URL_Path (MakeReq "/nope/") = "/" -> http.Body resp = help_text) /\
     (http.URL_Path (MakeReq "/nope/") <> "/" ->
      http.Body resp
      = ("Content date: " +:+ current_lastmod instant_a (MakeReq "/nope/")
         +:+ newline) +:+
        ("Generated:    " +:+ time.Format_RFC1123Z instant_a +:+ newline) /\
      dom (http.RespHeader resp)
      = ({[ "Content-Type"; "Content-Length" ]} : gset string))) /\
  (forall now' r' resp',
     handle now' r' = Ok resp' -> http.StatusCode resp' <> 410).
Proof.
  apply (unflagged_GET_answers_200 instant_a (MakeReq "/nope/"));
    reflexivity.
Defined.

(** ** Requests built by the harness *)

Lemma header_has_values_empty : header_has_values ∅.
Proof. intros key vs Hk. by rewrite lookup_empty in Hk. Qed.

Lemma header_has_values_Add (h : http.Header) (key value : string) :
  header_has_values h -> header_has_values (http.Add h key value).
Proof.
  intros Hh k vs Hk. unfold http.Add in Hk.
  destruct (decide (http.CanonicalMIMEHeaderKey key = k)) as [<- | Hne].
  - rewrite lookup_insert_eq in Hk. injection Hk as <-.
    by destruct (default [] (h !! http.CanonicalMIMEHeaderKey key)).
  - rewrite lookup_insert_ne in Hk by done. by apply Hh in Hk.
Qed.

(** ** The version clock *)

Lemma content_time_in_range (G : Z) (be_static : bool) (now : time.Time) :
  0 < G -> time.in_range now -> time.in_range (content_time G be_static now).
Proof.
  unfold time.in_range, content_time, time.Date.
  intros HG (Hmo & Hd & Hh & Hmi & Hs & Hn).
  destruct be_static; simpl; [lia |].
  rewrite Z.quot_div_nonneg by lia.
  pose proof (Z.mul_div_le (time.Second now) G HG).
  pose proof (Z.div_pos (time.Second now) G ltac:(lia) HG).
  nia.
Qed.

(** C9: two instants of the same minute whose seconds have the same
    integer quotient by the granularity get the same version; the version
    of an instant keeps year, month, day, hour and minute and lowers the
    seconds to the multiple of the granularity just below them (the
    fraction of a second is dropped); the version of a static resource is
    the fixed date 2012-12-20 20:12:12, whatever the instant. *)
Theorem version_clock_buckets (G : Z) (t1 t2 : time.Time) :
  0 < G ->
  0 <= time.Second t1 <= 59 ->
  0 <= time.Second t2 <= 59 ->
  (time.Year t1 = time.Year t2 -> time.Month t1 = time.Month t2 ->
   time.Day t1 = time.Day t2 -> time.Hour t1 = time.Hour t2 ->
   time.Minute t1 = time.Minute t2 ->
   time.Second t1 / G = time.Second t2 / G ->
   content_time G false t1 = content_time G false t2) /\
  (let v := content_time G false t1 in
   time.Year v = time.Year t1 /\ time.Month v = time.Month t1 /\
   time.Day v = time.Day t1 /\ time.Hour v = time.Hour t1 /\
   time.Minute v = time.Minute t1 /\
   time.Second v = G * (time.Second t1 / G) /\
   time.Second v <= time.Second t1 < time.Second v + G /\
   time.Nanosecond v = 0) /\
  content_time G true t1 = time.Date 2012 12 20 20 12 12 0 /\
  content_time G true t2 = content_time G true t1.
Proof.
  intros HG Hs1 Hs2. unfold content_time, time.Date.
  rewrite !Z.quot_div_nonneg by lia. split_and!; try reflexivity.
  - intros -> -> -> -> -> ->. reflexivity.
  - simpl. lia.
  - simpl. pose proof (Z.mul_div_le (time.Second t1) G HG). lia.
  - simpl. pose proof (Z.mod_pos_bound (time.Second t1) G HG).
    pose proof (Z.div_mod (time.Second t1) G ltac:(lia)). lia.
Qed.

Lemma version_clock_buckets_witness :
  content_time granularity_in_seconds false instant_a
  = content_time granularity_in_seconds false instant_b.
Proof.
  apply (version_clock_buckets granularity_in_seconds instant_a instant_b);
    (reflexivity || (simpl; lia)).
Defined.

Example version_changes_with_the_bucket :
  content_time granularity_in_seconds false instant_a
  <> content_time granularity_in_seconds false instant_c.
Proof. discriminate. Qed.

(** ** The fixed buffer *)

(** C10: the buffer has 4096 bytes.  A run of writes of at most 4096 bytes
    in total succeeds and [AsString] then returns their concatenation; a
    run of more than 4096 bytes ends in the slice-bounds panic of [Write]
    (the buffer is not grown and no error is returned).  For a GET that
    passes the checks on a path other than [/], the handler answers 200
    with the generated body when it has at most 4096 bytes and ends in
    that panic when it has more. *)
Theorem fixed_buffer_of_4096_bytes (chunks : list (list Byte.byte)) :
  cap Buffy = 4096 /\
  (Z.of_nat (length (concat chunks)) <= 4096 ->
   exists b,
     write_all Buffy chunks = Ok b /\
     AsString b = String.string_of_list_byte (concat chunks)) /\
  (4096 < Z.of_nat (length (concat chunks)) ->
   write_all Buffy chunks = Panicked slice_bounds_out_of_range) /\
  (forall now r headers,
     http.Method r = "GET" ->
     validate now r = Continue headers ->
     http.URL_Path r <> "/" ->
     (print_headers_of r = true -> header_has_values (http.ReqHeader r)) ->
     let text := content_text (print_headers_of r) (current_lastmod now r)
                   (time.Format_RFC1123Z now) (http.ReqHeader r) in
     (len text <= 4096 -> handle now r = Ok (full_response headers text)) /\
     (4096 < len text -> handle now r = Panicked slice_bounds_out_of_range)).
Proof.
  destruct Buffy_ok as (Hok & Hcap & Hwr). split_and!.
  - exact Hcap.
  - intros Hfit.
    destruct (write_all_fits chunks Buffy Hok) as (b & Hall & _ & _ & _ & Hb).
    { rewrite Hcap. change (pos Buffy) with 0. lia. }
    exists b. split; [done |]. by rewrite AsString_written, Hb, Hwr.
  - intros Hover. apply write_all_overflow; [done |].
    rewrite Hcap. change (pos Buffy) with 0. lia.
  - intros now r headers Hm Hv Hp Hvals text. split.
    + by apply handle_full.
    + by apply (handle_overflow now r headers).
Qed.

Lemma fixed_buffer_of_4096_bytes_witness :
  (exists b,
     write_all Buffy [String.list_byte_of_string "Content ";
                      String.list_byte_of_string "date"] = Ok b /\
     AsString b = "Content date") /\
  write_all Buffy [String.list_byte_of_string (filler 4000);
                   String.list_byte_of_string (filler 97)]
  = Panicked slice_bounds_out_of_range /\
  handle instant_a oversized_request = Panicked slice_bounds_out_of_range.
Proof.
  split_and!.
  - apply (fixed_buffer_of_4096_bytes
             [String.list_byte_of_string "Content ";
              String.list_byte_of_string "date"]).
    vm_compute. discriminate.
  - apply (fixed_buffer_of_4096_bytes
             [String.list_byte_of_string (filler 4000);
              String.list_byte_of_string (filler 97)]).
    vm_compute. reflexivity.
  - destruct (fixed_buffer_of_4096_bytes []) as (_ & _ & _ & Hhandle).
    apply (Hhandle instant_a oversized_request ∅).
    + reflexivity.
    + vm_compute. reflexivity.
    + discriminate.
    + intros _. apply header_has_values_Add, header_has_values_empty.
    + vm_compute. reflexivity.
Defined.

(** ** The date channel *)



Example later_and_earlier_dates_answer_304 :
  handle instant_a
    (add_header (MakeReq "/static/lastmod/doc/") "If-Modified-Since"
       "Fri, 21 Dec 2012 20:12:12 +0000")
  = Ok (error_response 304 "Document has not been modified") /\
  handle instant_a
    (add_header (MakeReq "/static/lastmod/doc/") "If-Modified-Since"
       "Wed, 19 Dec 2012 20:12:12 +0000")
  = Ok (error_response 304 "Document has not been modified").
Proof. split; reflexivity. Qed.

(** ** Precedence of the ETag channel *)

(** X19: on an etag-enabled resource, a GET whose If-Match value is
    present and is neither the wildcard nor the current quoted tag is
    answered 412 whatever its other headers; a GET that passes the
    If-Match check and whose If-None-Match value is exactly the current
    quoted tag is answered 304 whatever its date headers. *)
Theorem etag_checks_come_first (now : time.Time) (r : http.Request) :
  http.Method r = "GET" ->
  use_etags_of r = true ->
  (if_match r <> "" -> if_match r <> "*" ->
   if_match r <> current_etag now r ->
   handle now r = Ok (error_response 412 "If-Match failed: ETag did not match"))
  /\
  (if_match r = "" \/ if_match r = current_etag now r ->
   if_none_match r = current_etag now r ->
   handle now r = Ok (error_response 304 "Content matches on If-None-Match")).
Proof.
  intros Hm He. split.
  - intros Hne _ Hdiff. apply handle_returned; [done | done |].
    by apply validate_if_match_fails.
  - intros Him Hinm. apply handle_returned; [done | done |].
    by apply validate_if_none_match_hits.
Qed.

Lemma etag_checks_come_first_witness :
  handle instant_a stale_if_match_request
  = Ok (error_response 412 "If-Match failed: ETag did not match") /\
  handle instant_a none_match_and_dates_request
  = Ok (error_response 304 "Content matches on If-None-Match").
Proof.
  split.
  - apply (etag_checks_come_first instant_a stale_if_match_request);
      try reflexivity; vm_compute; discriminate.
  - apply (etag_checks_come_first instant_a none_match_and_dates_request);
      try reflexivity. left. reflexivity.
Defined.

(** ** The wildcard *)

Lemma current_etag_quoted (now : time.Time) (r : http.Request) :
  exists s, current_etag now r = String (Ascii.ascii_of_nat 34) s.
Proof. unfold current_etag, dquote. simpl. eauto. Qed.

(** C3, on the code: a GET on an etag-enabled resource whose If-Match
    header is the wildcard is answered 412, because the handler compares
    the quoted wildcard with its own tag and not with the header. *)
Theorem wildcard_if_match_answers_412 (now : time.Time) (r : http.Request) :
  http.Method r = "GET" ->
  use_etags_of r = true ->
  if_match r = "*" ->
  handle now r = Ok (error_response 412 "If-Match failed: ETag did not match") /\
  http.StatusCode (error_response 412 "If-Match failed: ETag did not match")
  = 412.
Proof.
  intros Hm He Him. split; [| reflexivity].
  apply handle_returned; [done | done |].
  apply validate_if_match_fails; [done | by rewrite Him |].
  rewrite Him. destruct (current_etag_quoted now r) as [s ->]. discriminate.
Qed.

Lemma wildcard_if_match_answers_412_witness :
  let r := add_header (MakeReq "/static/etag/functest/") "If-Match" "*" in
  handle instant_a r
  = Ok (error_response 412 "If-Match failed: ETag did not match") /\
  http.StatusCode (error_response 412 "If-Match failed: ETag did not match")
  = 412.
Proof.
  intros r. apply (wildcard_if_match_answers_412 instant_a r); reflexivity.
Defined.

(** ** The header that carries the tag *)

Lemma full_header_without_ETag (use_etags use_lastmod : bool)
    (etag_enc then_header n : string) :
  http.Get (full_header use_etags use_lastmod etag_enc then_header n) "ETag"
  = "".
Proof. destruct use_etags, use_lastmod; reflexivity. Qed.

Lemma full_header_E_Tag (use_lastmod : bool) (etag_enc then_header n : string) :
  full_header true use_lastmod etag_enc then_header n !! "E-Tag"
  = Some [etag_enc].
Proof. destruct use_lastmod; reflexivity. Qed.

Lemma full_header_Last_Modified (use_etags : bool)
    (etag_enc then_header n : string) :
  http.Get (full_header use_etags true etag_enc then_header n) "Last-Modified"
  = then_header.
Proof. destruct use_etags; reflexivity. Qed.

(** C2, on the code: no response of the handler has an ETag header, so a
    reader of ETag gets the empty string and both requests of
    [ETagV.Build] carry an empty value; a 200 response of an etag-enabled
    resource carries the quoted tag under the name E-Tag. *)
Theorem tag_is_sent_as_E_Tag (now : time.Time) (r : http.Request)
    (resp : http.Response) :
  handle now r = Ok resp ->
  http.Get (http.RespHeader resp) "ETag" = "" /\
  (forall path,
     ETagV_Build path resp
     = (add_header (MakeReq path) "If-None-Match" "",
        add_header (MakeReq path) "If-Match" "")) /\
  (http.StatusCode resp = 200 -> use_etags_of r = true ->
   http.RespHeader resp !! "E-Tag" = Some [current_etag now r]).
Proof.
  intros Hh.
  assert (Hget : http.Get (http.RespHeader resp) "ETag" = "").
  { revert Hh.
    destruct (String.eqb_spec (http.Method r) "GET") as [Hm | Hm].
    - rewrite (handle_GET now r Hm).
      destruct (validate now r) as [w | headers] eqn:Hv.
      + apply validate_returned_shape in Hv
          as (code & message & -> & Hmsg & Hcode).
        rewrite respond_error by done. by intros [= <-].
      + apply validate_continue_shape in Hv as ->.
        destruct (String.eqb (http.URL_Path r) "/"); [by intros [= <-] |].
        destruct (write_content _ _ _ _) as [b | p]; simpl; [| done].
        intros [= <-]. rewrite full_response_header.
        apply full_header_without_ETag.
    - rewrite (handle_not_GET now r Hm). by intros [= <-]. }
  split; [exact Hget |]. split.
  { intros path. unfold ETagV_Build. by rewrite Hget. }
  intros Hs He. revert Hh Hs.
  destruct (String.eqb_spec (http.Method r) "GET") as [Hm | Hm].
  - rewrite (handle_GET now r Hm).
    destruct (validate now r) as [w | headers] eqn:Hv.
    + apply validate_returned_shape in Hv
        as (code & message & -> & Hmsg & Hcode).
      rewrite respond_error by done. intros [= <-]. simpl. lia.
    + apply validate_continue_shape in Hv as ->.
      destruct (String.eqb_spec (http.URL_Path r) "/") as [Hp | Hp].
      * unfold use_etags_of in He. rewrite Hp in He. discriminate He.
      * destruct (write_content _ _ _ _) as [b | p]; simpl; [| done].
        intros [= <-] _. rewrite full_response_header, He.
        apply full_header_E_Tag.
  - rewrite (handle_not_GET now r Hm). intros [= <-]. discriminate.
Qed.

Lemma tag_is_sent_as_E_Tag_witness :
  exists resp,
    handle instant_a (MakeReq "/static/etag/functest/") = Ok resp /\
    http.StatusCode resp = 200 /\
    http.Get (http.RespHeader resp) "ETag" = "" /\
    ETagV_Build "/static/etag/functest/" resp
    = (add_header (MakeReq "/static/etag/functest/") "If-None-Match" "",
       add_header (MakeReq "/static/etag/functest/") "If-Match" "") /\
    http.RespHeader resp !! "E-Tag"
    = Some [dquote +:+ "2012-12-20,20:12:12" +:+ dquote].
Proof.
  eexists. split; [vm_compute; reflexivity |]. split; [reflexivity |].
  destruct (tag_is_sent_as_E_Tag instant_a (MakeReq "/static/etag/functest/")
              _ eq_refl) as (Hget & Hbuild & Htag).
  split; [exact Hget |]. split; [apply Hbuild |]. apply Htag; reflexivity.
Defined.

(** With the requests that [ETagV.Build] makes from that response, the
    second phase of the harness gets 200 for the modded request. *)
Example harness_etag_phase_two :
  exists resp,
    handle instant_a (MakeReq "/static/etag/functest/") = Ok resp /\
    (exists resp',
       handle instant_b (ETagV_Build "/static/etag/functest/" resp).1
       = Ok resp' /\ http.StatusCode resp' = 200).
Proof.
  eexists. split; [vm_compute; reflexivity |].
  eexists. split; [vm_compute; reflexivity | reflexivity].
Qed.

(** ** Replaying the captured Last-Modified value *)

Lemma Get_Add_empty (key1 key2 value : string) :
  http.Get (http.Add ∅ key1 value) key2
  = if decide (http.CanonicalMIMEHeaderKey key1
               = http.CanonicalMIMEHeaderKey key2)
    then value else "".
Proof.
  unfold http.Get, http.Add. rewrite lookup_empty. simpl.
  case_decide as E.
  - by rewrite E, lookup_insert_eq.
  - by rewrite lookup_insert_ne, lookup_empty.
Qed.

Lemma sorted_keys_empty : sorted_keys ∅ = [].
Proof. unfold sorted_keys. by rewrite map_to_list_empty. Qed.

Lemma sorted_keys_Add_empty (key value : string) :
  sorted_keys (http.Add ∅ key value) = [http.CanonicalMIMEHeaderKey key].
Proof.
  unfold sorted_keys, http.Add. rewrite lookup_empty. simpl.
  rewrite insert_empty, map_to_list_singleton. reflexivity.
Qed.

Lemma len_content_text (print_headers : bool) (now then_ : time.Time)
    (h : http.Header) :
  len (content_text print_headers (time.Format_RFC1123Z then_)
         (time.Format_RFC1123Z now) h)
  <= 298 + total_len (map (header_line h) (sorted_keys h)).
Proof.
  unfold content_text. rewrite len_concat_chunks.
  unfold content_chunks, total_len.
  pose proof (len_Format_RFC1123Z now). pose proof (len_Format_RFC1123Z then_).
  assert (Hrest : 0 <= foldr (fun c n => len c + n) 0
                         (map (header_line h) (sorted_keys h))).
  { induction (map (header_line h) (sorted_keys h)) as [| c l IH]; simpl;
      [lia |]. pose proof (len_nonneg c). lia. }
  destruct print_headers; cbn [foldr app]; rewrite !len_append;
    change (len "Content date: ") with 14;
    change (len "Generated:    ") with 14;
    change (len "REQUEST HEADERS:") with 16;
    change (len newline) with 1; lia.
Qed.

(** C1, on the code: for a lastmod-enabled path, the unconditional GET is
    answered 200 with the formatted timestamp of the current version in
    Last-Modified, and the modded request of [DateModV.Build], which
    replays that value in If-Modified-Since, is answered 200 as long as
    the version has not changed, not 304. *)
Theorem replayed_if_modified_since_answers_200
    (now1 now2 : time.Time) (path : string) :
  use_lastmod_of (MakeReq path) = true ->
  current_version now2 (MakeReq path) = current_version now1 (MakeReq path) ->
  exists resp1 resp2,
    handle now1 (MakeReq path) = Ok resp1 /\
    http.StatusCode resp1 = 200 /\
    http.Get (http.RespHeader resp1) "Last-Modified"
    = current_lastmod now1 (MakeReq path) /\
    handle now2 (DateModV_Build path resp1).1 = Ok resp2 /\
    http.StatusCode resp2 = 200.
Proof.
  intros Hl Hsame.
  set (r0 := MakeReq path) in *.
  assert (Hp : http.URL_Path r0 <> "/").
  { intros E. unfold use_lastmod_of in Hl. rewrite E in Hl. discriminate Hl. }
  assert (Hquoted : forall now r, "" <> current_etag now r).
  { intros now r. destruct (current_etag_quoted now r) as [s ->]. discriminate. }
  (* the unconditional request *)
  assert (Hv1 : validate now1 r0
                = Continue (custom_headers (use_etags_of r0) (use_lastmod_of r0)
                              (current_etag now1 r0) (current_lastmod now1 r0))).
  { apply validate_passes.
    - intros _. split; [by left | apply Hquoted].
    - by left.
    - by left. }
  assert (Hfit1 : len (content_text (print_headers_of r0)
                         (current_lastmod now1 r0)
                         (time.Format_RFC1123Z now1) (http.ReqHeader r0))
                  <= 4096).
  { pose proof (len_content_text (print_headers_of r0) now1
                  (current_version now1 r0) (http.ReqHeader r0)) as Hlen.
    fold (current_lastmod now1 r0) in Hlen.
    change (http.ReqHeader r0) with (∅ : http.Header) in *.
    rewrite sorted_keys_empty in Hlen. change (total_len (map _ [])) with 0 in Hlen.
    lia. }
  pose proof (handle_full now1 r0 _ eq_refl Hv1 Hp
                (fun _ => header_has_values_empty) Hfit1) as Hh1.
  eexists _, _. split; [exact Hh1 |].
  rewrite full_response_status. split; [reflexivity |].
  unfold DateModV_Build. cbn [fst].
  rewrite full_response_header, Hl, full_header_Last_Modified.
  split; [reflexivity |].
  (* the modded request *)
  set (lm := current_lastmod now1 r0).
  set (r1 := add_header (MakeReq path) "If-Modified-Since" lm).
  assert (Hlm : current_lastmod now2 r1 = lm).
  { unfold lm, current_lastmod. by rewrite <- Hsame. }
  assert (Hreq : forall key, http.Get (http.ReqHeader r1) key
                             = http.Get (http.Add ∅ "If-Modified-Since" lm) key)
    by reflexivity.
  assert (Hv2 : validate now2 r1
                = Continue (custom_headers (use_etags_of r1) (use_lastmod_of r1)
                              (current_etag now2 r1) (current_lastmod now2 r1))).
  { apply validate_passes.
    - intros _. unfold if_match, if_none_match.
      rewrite !Hreq, !Get_Add_empty. split; [by left | apply Hquoted].
    - left. unfold if_unmodified_since.
      by rewrite Hreq, Get_Add_empty.
    - right. rewrite Hlm. unfold if_modified_since.
      by rewrite Hreq, Get_Add_empty. }
  split; [| apply full_response_status].
  apply (handle_full now2 r1 _ eq_refl Hv2 Hp).
  - intros _. apply header_has_values_Add, header_has_values_empty.
  - pose proof (len_content_text (print_headers_of r1) now2
                  (current_version now2 r1) (http.ReqHeader r1)) as Hlen.
    fold (current_lastmod now2 r1) in Hlen.
    change (http.ReqHeader r1)
      with (http.Add ∅ "If-Modified-Since" lm) in *.
    rewrite sorted_keys_Add_empty in Hlen.
    assert (Hline : total_len
                      (map (header_line (http.Add ∅ "If-Modified-Since" lm))
                         [http.CanonicalMIMEHeaderKey "If-Modified-Since"])
                    <= 146).
    { change (http.CanonicalMIMEHeaderKey "If-Modified-Since")
        with "If-Modified-Since".
      unfold total_len, header_line. cbn [map foldr].
      replace (http.Add ∅ "If-Modified-Since" lm !! "If-Modified-Since")
        with (Some [lm]) by (symmetry; apply lookup_insert_eq).
      change (default "" (head (default [] (Some [lm])))) with lm.
      rewrite !len_append.
      pose proof (len_Format_RFC1123Z (current_version now1 r0)) as Hb.
      fold (current_lastmod now1 r0) in Hb. fold lm in Hb.
      change (len "  ") with 2. change (len "If-Modified-Since") with 17.
      change (len ": ") with 2. change (len newline) with 1. lia. }
    lia.
Qed.

Lemma replayed_if_modified_since_answers_200_witness :
  exists resp1 resp2,
    handle instant_a (MakeReq "/static/lastmod/functest/") = Ok resp1 /\
    http.StatusCode resp1 = 200 /\
    http.Get (http.RespHeader resp1) "Last-Modified"
    = current_lastmod instant_a (MakeReq "/static/lastmod/functest/") /\
    handle instant_b
      (DateModV_Build "/static/lastmod/functest/" resp1).1 = Ok resp2 /\
    http.StatusCode resp2 = 200.
Proof.
  apply (replayed_if_modified_since_answers_200 instant_a instant_b
           "/static/lastmod/functest/"); reflexivity.
Defined.

Example replayed_if_modified_since_periodic :
  handle instant_b
    (add_header (MakeReq "/periodic/lastmod/functest/") "If-Modified-Since"
       "Sun, 01 Nov 2026 10:30:45 +0000")
  = Ok (full_response
          (custom_headers false true "" "Sun, 01 Nov 2026 10:30:45 +0000")
          (("Content date: Sun, 01 Nov 2026 10:30:45 +0000" +:+ newline) +:+
           ("Generated:    Sun, 01 Nov 2026 10:30:52 +0000" +:+ newline))).
Proof. vm_compute. reflexivity. Qed.


(** * Further properties of the handler and of the harness *)

(** ** What every answer looks like *)

Lemma response_has_no_ETag (now : time.Time) (r : http.Request)
    (resp : http.Response) :
  handle now r = Ok resp -> http.Get (http.RespHeader resp) "ETag" = "".
Proof.
  destruct (String.eqb_spec (http.Method r) "GET") as [Hm | Hm].
  - rewrite (handle_GET now r Hm).
    destruct (validate now r) as [w | headers] eqn:Hv.
    + apply validate_returned_shape in Hv
        as (code & message & -> & Hmsg & Hcode).
      rewrite respond_error by done. by intros [= <-].
    + apply validate_continue_shape in Hv as ->.
      destruct (String.eqb (http.URL_Path r) "/"); [by intros [= <-] |].
      destruct (write_content _ _ _ _) as [b | p]; simpl; [| done].
      intros [= <-]. rewrite full_response_header.
      apply full_header_without_ETag.
  - rewrite (handle_not_GET now r Hm). by intros [= <-].
Qed.

(** The answers of [handle], by cases. *)
Lemma handle_cases (now : time.Time) (r : http.Request)
    (resp : http.Response) :
  handle now r = Ok resp ->
  (exists code message,
     resp = error_response code message /\
     (code = 304 \/ code = 405 \/ code = 412)) \/
  (resp = help_response /\ http.URL_Path r = "/" /\
   use_etags_of r = false /\ use_lastmod_of r = false) \/
  (exists content,
     resp = full_response
              (custom_headers (use_etags_of r) (use_lastmod_of r)
                 (current_etag now r) (current_lastmod now r)) content /\
     http.URL_Path r <> "/" /\
     exists b,
       write_content (print_headers_of r) (current_lastmod now r)
         (time.Format_RFC1123Z now) r = Ok b /\
       content = AsString b).
Proof.
  destruct (String.eqb_spec (http.Method r) "GET") as [Hm | Hm].
  - rewrite (handle_GET now r Hm).
    destruct (validate now r) as [w | headers] eqn:Hv.
    + apply validate_returned_shape in Hv
        as (code & message & -> & Hmsg & Hcode).
      rewrite respond_error by done. intros [= <-]. left.
      exists code, message. split; [done |]. tauto.
    + apply validate_continue_shape in Hv as ->.
      destruct (String.eqb_spec (http.URL_Path r) "/") as [Hp | Hp].
      * intros [= <-]. right. left. unfold use_etags_of, use_lastmod_of.
        rewrite Hp. done.
      * destruct (write_content _ _ _ _) as [b | p] eqn:Hw; simpl; [| done].
        intros [= <-]. right. right. eexists. split; [done |].
        split; [done |]. by exists b.
  - rewrite (handle_not_GET now r Hm). intros [= <-]. left.
    eexists _, _. split; [done |]. tauto.
Qed.

(** X1: the handler answers with 200, 304, 405 or 412 and nothing else,
    and each of the four is the answer to some request. *)
Theorem handle_has_four_statuses :
  (forall now r resp,
     handle now r = Ok resp ->
     http.StatusCode resp = 200 \/ http.StatusCode resp = 304 \/
     http.StatusCode resp = 405 \/ http.StatusCode resp = 412) /\
  (forall code, code ∈ [200; 304; 405; 412] ->
     exists now r resp, handle now r = Ok resp /\ http.StatusCode resp = code).
Proof.
  split; [apply handle_status |].
  intros code Hcode. exists instant_a.
  repeat (apply elem_of_cons in Hcode as [-> | Hcode]).
  - exists (MakeReq "/doc/"). eexists. split; [vm_compute; reflexivity | done].
  - exists (add_header (MakeReq "/lastmod/doc/") "If-Modified-Since" "x").
    eexists. split; [vm_compute; reflexivity | done].
  - exists (ClockU_request "/doc/").
    eexists. split; [vm_compute; reflexivity | done].
  - exists (add_header (MakeReq "/etag/doc/") "If-Match" "x").
    eexists. split; [vm_compute; reflexivity | done].
  - by apply elem_of_nil in Hcode.
Qed.

(** X2: on every 200 answer the Content-Length header is the decimal
    length of the body that is sent. *)
Theorem content_length_is_body_length (now : time.Time) (r : http.Request)
    (resp : http.Response) :
  handle now r = Ok resp ->
  http.StatusCode resp = 200 ->
  http.RespHeader resp !! "Content-Length"
  = Some [strconv_Itoa (len (http.Body resp))].
Proof.
  intros Hh Hs.
  destruct (handle_cases now r resp Hh)
    as [(code & message & -> & Hcode) | [(-> & _) | (content & -> & _)]].
  - simpl in Hs. lia.
  - reflexivity.
  - rewrite full_response_header, full_response_body.
    unfold full_header. apply lookup_insert_eq.
Qed.

Lemma content_length_is_body_length_witness :
  exists resp,
    handle instant_a all_flags_request = Ok resp /\
    http.RespHeader resp !! "Content-Length"
    = Some [strconv_Itoa (len (http.Body resp))] /\
    http.RespHeader resp !! "Content-Length" = Some ["138"].
Proof.
  eexists. split; [vm_compute; reflexivity |]. split; [| reflexivity].
  apply (content_length_is_body_length instant_a all_flags_request);
    reflexivity.
Defined.

(** X3: an answer other than 200 carries no validator: the E-Tag and
    Last-Modified headers are only copied into the response on the way to
    a 200, so a 304 or 412 has neither. *)
Theorem validators_only_on_200 (now : time.Time) (r : http.Request)
    (resp : http.Response) :
  handle now r = Ok resp ->
  http.StatusCode resp <> 200 ->
  http.RespHeader resp !! "E-Tag" = None /\
  http.RespHeader resp !! "Last-Modified" = None /\
  http.RespHeader resp !! "Content-Type" = Some ["text/plain; charset=utf-8"].
Proof.
  intros Hh Hs.
  destruct (handle_cases now r resp Hh)
    as [(code & message & -> & Hcode) | [(-> & _) | (content & -> & _)]].
  - done.
  - by destruct Hs.
  - by rewrite full_response_status in Hs.
Qed.

Lemma validators_only_on_200_witness :
  let resp := error_response 304 "Content matches on If-None-Match" in
  handle instant_a none_match_and_dates_request = Ok resp /\
  http.RespHeader resp !! "E-Tag" = None /\
  http.RespHeader resp !! "Last-Modified" = None /\
  http.RespHeader resp !! "Content-Type" = Some ["text/plain; charset=utf-8"].
Proof.
  intros resp. split; [reflexivity |].
  apply (validators_only_on_200 instant_a none_match_and_dates_request);
    [reflexivity | discriminate].
Defined.

(** X4: a 200 answer carries exactly the validators that the path
    enables: Last-Modified with the formatted timestamp of the current
    version when the path has the lastmod segment and no Last-Modified
    otherwise, and no E-Tag when the path has no etag segment. *)
Theorem validators_follow_the_flags (now : time.Time) (r : http.Request)
    (resp : http.Response) :
  handle now r = Ok resp ->
  http.StatusCode resp = 200 ->
  http.RespHeader resp !! "Last-Modified"
  = (if use_lastmod_of r then Some [current_lastmod now r] else None) /\
  (use_etags_of r = false -> http.RespHeader resp !! "E-Tag" = None) /\
  http.RespHeader resp !! "Content-Type" = Some ["text/plain; charset=utf-8"].
Proof.
  intros Hh Hs.
  destruct (handle_cases now r resp Hh)
    as [(code & message & -> & Hcode)
       | [(-> & _ & He & Hl) | (content & -> & _)]].
  - simpl in Hs. lia.
  - by rewrite Hl.
  - rewrite full_response_header.
    destruct (use_lastmod_of r), (use_etags_of r);
      (split_and!; [reflexivity | intros E; first [discriminate E | reflexivity]
                   | reflexivity]).
Qed.

Lemma validators_follow_the_flags_witness :
  exists resp,
    handle instant_a (MakeReq "/periodic/lastmod/functest/") = Ok resp /\
    http.RespHeader resp !! "Last-Modified"
    = Some ["Sun, 01 Nov 2026 10:30:45 +0000"] /\
    http.RespHeader resp !! "E-Tag" = None.
Proof.
  eexists. split; [vm_compute; reflexivity |].
  destruct (validators_follow_the_flags instant_a
              (MakeReq "/periodic/lastmod/functest/") _ eq_refl eq_refl)
    as (Hlm & Het & _).
  split; [exact Hlm | by apply Het].
Defined.

(** ** The third step of the evaluation order *)

(** X5: on a lastmod-enabled resource, a GET that the ETag checks let
    through and whose If-Unmodified-Since value is present and is not the
    formatted timestamp of the current version is answered 412, whatever
    its If-Modified-Since header. *)
Theorem differing_if_unmodified_since_answers_412
    (now : time.Time) (r : http.Request) :
  http.Method r = "GET" ->
  use_lastmod_of r = true ->
  etag_checks_pass now r ->
  if_unmodified_since r <> "" ->
  if_unmodified_since r <> current_lastmod now r ->
  handle now r = Ok (error_response 412 "Document has been modified").
Proof.
  intros Hm Hl Hpass Hne Hdiff.
  apply handle_returned; [done | done |].
  by apply validate_unmodified_since_fails.
Qed.

Lemma differing_if_unmodified_since_answers_412_witness :
  handle instant_a none_match_and_dates_request
  = Ok (error_response 304 "Content matches on If-None-Match") /\
  handle instant_a
    (add_header
       (add_header (MakeReq "/static/lastmod/doc/") "If-Unmodified-Since"
          "Wed, 19 Dec 2012 00:00:00 +0000")
       "If-Modified-Since" "Wed, 19 Dec 2012 00:00:00 +0000")
  = Ok (error_response 412 "Document has been modified").
Proof.
  split; [reflexivity |].
  apply differing_if_unmodified_since_answers_412.
  - reflexivity.
  - reflexivity.
  - intros He. vm_compute in He. discriminate He.
  - vm_compute. discriminate.
  - vm_compute. discriminate.
Defined.

(** ** Requests with one header *)

Lemma len_Format_etag (t : time.Time) : len (time.Format_etag t) <= 131.
Proof.
  unfold time.Format_etag, time.clock. rewrite !len_append.
  pose proof (len_appendInt (time.Year t) 4).
  pose proof (len_appendInt (time.Month t) 2).
  pose proof (len_appendInt (time.Day t) 2).
  pose proof (len_appendInt (time.Hour t) 2).
  pose proof (len_appendInt (time.Minute t) 2).
  pose proof (len_appendInt (time.Second t) 2).
  change (len "-") with 1. change (len ",") with 1. change (len ":") with 1.
  lia.
Qed.

Lemma len_current_etag (now : time.Time) (r : http.Request) :
  len (current_etag now r) <= 133.
Proof.
  unfold current_etag. rewrite !len_append.
  pose proof (len_Format_etag (current_version now r)).
  change (len dquote) with 1. lia.
Qed.

Lemma len_current_lastmod (now : time.Time) (r : http.Request) :
  len (current_lastmod now r) <= 124.
Proof. apply len_Format_RFC1123Z. Qed.

Lemma one_header_content_fits (print_headers : bool) (now then_ : time.Time)
    (key value : string) :
  len (http.CanonicalMIMEHeaderKey key) + len value <= 3000 ->
  len (content_text print_headers (time.Format_RFC1123Z then_)
         (time.Format_RFC1123Z now) (http.Add ∅ key value)) <= 4096.
Proof.
  intros Hsize.
  pose proof (len_content_text print_headers now then_
                (http.Add ∅ key value)) as Hlen.
  rewrite sorted_keys_Add_empty in Hlen.
  unfold total_len, header_line in Hlen. cbn [map foldr] in Hlen.
  replace (http.Add ∅ key value !! http.CanonicalMIMEHeaderKey key)
    with (Some [value]) in Hlen by (symmetry; apply lookup_insert_eq).
  change (default "" (head (default [] (Some [value])))) with value in Hlen.
  rewrite !len_append in Hlen.
  change (len "  ") with 2 in Hlen. change (len ": ") with 2 in Hlen.
  change (len newline) with 1 in Hlen. lia.
Qed.

(** A request of the harness with one header that passes the checks is
    answered 200. *)
Lemma handle_one_header_200 (now : time.Time) (path key value : string)
    (headers : gmap string string) :
  let r := add_header (MakeReq path) key value in
  validate now r = Continue headers ->
  len (http.CanonicalMIMEHeaderKey key) + len value <= 3000 ->
  exists resp,
    handle now r = Ok resp /\ http.StatusCode resp = 200 /\
    (path <> "/" ->
     resp = full_response headers
              (content_text (print_headers_of r) (current_lastmod now r)
                 (time.Format_RFC1123Z now) (http.ReqHeader r))).
Proof.
  intros r Hv Hsize.
  destruct (String.eqb_spec path "/") as [Hp | Hp].
  - exists help_response. rewrite (handle_GET now r eq_refl), Hv.
    change (http.URL_Path r) with path. rewrite Hp. done.
  - eexists. split; [| split; [apply full_response_status | done]].
    apply (handle_full now r headers eq_refl Hv Hp).
    + intros _. apply header_has_values_Add, header_has_values_empty.
    + by apply one_header_content_fits.
Qed.

(** The unconditional GET of the harness. *)
Lemma baseline_validates (now : time.Time) (path : string) :
  validate now (MakeReq path)
  = Continue (custom_headers (use_etags_of (MakeReq path))
                (use_lastmod_of (MakeReq path))
                (current_etag now (MakeReq path))
                (current_lastmod now (MakeReq path))).
Proof.
  apply validate_passes.
  - intros _. split; [by left |].
    destruct (current_etag_quoted now (MakeReq path)) as [s ->]. discriminate.
  - by left.
  - by left.
Qed.

Lemma baseline_answer (now : time.Time) (path : string) :
  path <> "/" ->
  handle now (MakeReq path)
  = Ok (full_response
          (custom_headers (use_etags_of (MakeReq path))
             (use_lastmod_of (MakeReq path))
             (current_etag now (MakeReq path))
             (current_lastmod now (MakeReq path)))
          (content_text (print_headers_of (MakeReq path))
             (current_lastmod now (MakeReq path))
             (time.Format_RFC1123Z now) ∅)).
Proof.
  intros Hp.
  apply (handle_full now (MakeReq path) _ eq_refl (baseline_validates now path) Hp).
  - intros _. apply header_has_values_empty.
  - pose proof (len_content_text (print_headers_of (MakeReq path)) now
                  (current_version now (MakeReq path)) ∅) as Hlen.
    rewrite sorted_keys_empty in Hlen.
    change (total_len (map _ [])) with 0 in Hlen.
    change (http.ReqHeader (MakeReq path)) with (∅ : http.Header).
    unfold current_lastmod. lia.
Qed.

Lemma lastmod_path_is_not_root (path : string) :
  use_lastmod_of (MakeReq path) = true -> path <> "/".
Proof. intros Hl ->. discriminate Hl. Qed.

Lemma etag_path_is_not_root (path : string) :
  use_etags_of (MakeReq path) = true -> path <> "/".
Proof. intros He ->. discriminate He. Qed.

Lemma one_header_get (path key value k : string) :
  http.Get (http.ReqHeader (add_header (MakeReq path) key value)) k
  = if decide (http.CanonicalMIMEHeaderKey key = http.CanonicalMIMEHeaderKey k)
    then value else "".
Proof. apply Get_Add_empty. Qed.

Lemma one_header_get_same (path key value k : string) :
  http.CanonicalMIMEHeaderKey key = http.CanonicalMIMEHeaderKey k ->
  http.Get (http.ReqHeader (add_header (MakeReq path) key value)) k = value.
Proof. intros E. rewrite one_header_get. by rewrite decide_True. Qed.

Lemma one_header_get_other (path key value k : string) :
  http.CanonicalMIMEHeaderKey key <> http.CanonicalMIMEHeaderKey k ->
  http.Get (http.ReqHeader (add_header (MakeReq path) key value)) k = "".
Proof. intros E. rewrite one_header_get. by rewrite decide_False. Qed.

Ltac other_header :=
  let E := fresh "E" in intros E; vm_compute in E; discriminate E.

Lemma current_lastmod_nonempty (now : time.Time) (r : http.Request) :
  current_lastmod now r <> "".
Proof.
  intros E. apply (f_equal len) in E.
  unfold current_lastmod, time.Format_RFC1123Z in E.
  rewrite len_append, len_weekday_abbrev in E.
  pose proof (len_nonneg (", " +:+ appendInt (time.Day (current_version now r)) 2
                +:+ " " +:+ time.month_abbrev (time.Month (current_version now r))
                +:+ " " +:+ appendInt (time.Year (current_version now r)) 4
                +:+ " " +:+ time.clock (current_version now r) +:+ " +0000")).
  change (len "") with 0 in E. lia.
Qed.

Lemma current_etag_nonempty (now : time.Time) (r : http.Request) :
  current_etag now r <> "".
Proof. destruct (current_etag_quoted now r) as [s ->]. discriminate. Qed.

(** Checks of a harness request with one precondition header. *)
Lemma one_header_passes (now : time.Time) (path key value : string) :
  let r := add_header (MakeReq path) key value in
  (if_match r = "" \/ if_match r = current_etag now r) ->
  if_none_match r <> current_etag now r ->
  (if_unmodified_since r = "" \/ if_unmodified_since r = current_lastmod now r) ->
  (if_modified_since r = "" \/ if_modified_since r = current_lastmod now r) ->
  len (http.CanonicalMIMEHeaderKey key) + len value <= 3000 ->
  exists resp, handle now r = Ok resp /\ http.StatusCode resp = 200.
Proof.
  intros r Him Hinm Hius Hims Hsize.
  destruct (handle_one_header_200 now path key value _
              (validate_passes now r (fun _ => conj Him Hinm) Hius Hims) Hsize)
    as (resp & Hh & Hs & _).
  by exists resp.
Qed.

(** ** The requests of [DateModV.Build] *)

Lemma DateModV_Build_of_baseline (now : time.Time) (path : string) :
  use_lastmod_of (MakeReq path) = true ->
  exists resp,
    handle now (MakeReq path) = Ok resp /\ http.StatusCode resp = 200 /\
    DateModV_Build path resp
    = (add_header (MakeReq path) "If-Modified-Since"
         (current_lastmod now (MakeReq path)),
       add_header (MakeReq path) "If-Unmodified-Since"
         (current_lastmod now (MakeReq path))).
Proof.
  intros Hl. eexists. split.
  { apply baseline_answer. by apply lastmod_path_is_not_root. }
  split; [apply full_response_status |].
  unfold DateModV_Build.
  by rewrite full_response_header, Hl, full_header_Last_Modified.
Qed.

(** X6: the same request of [DateModV.Build], which replays the captured
    Last-Modified value in If-Unmodified-Since, is answered 200 as long as
    the formatted timestamp of the version is the captured one. *)
Theorem DateModV_same_request_while_unchanged
    (now1 now2 : time.Time) (path : string) :
  use_lastmod_of (MakeReq path) = true ->
  current_lastmod now2 (MakeReq path) = current_lastmod now1 (MakeReq path) ->
  exists resp1 resp2,
    handle now1 (MakeReq path) = Ok resp1 /\
    http.StatusCode resp1 = 200 /\
    handle now2 (DateModV_Build path resp1).2 = Ok resp2 /\
    http.StatusCode resp2 = 200.
Proof.
  intros Hl Hsame.
  destruct (DateModV_Build_of_baseline now1 path Hl) as (resp1 & Hh1 & Hs1 & Hb).
  set (lm := current_lastmod now1 (MakeReq path)) in *.
  destruct (one_header_passes now2 path "If-Unmodified-Since" lm)
    as (resp2 & Hh2 & Hs2).
  - left. apply one_header_get_other. other_header.
  - unfold if_none_match. rewrite one_header_get_other by other_header.
    intros E. symmetry in E. by apply current_etag_nonempty in E.
  - right. unfold if_unmodified_since. by rewrite one_header_get_same.
  - left. apply one_header_get_other. other_header.
  - pose proof (len_current_lastmod now1 (MakeReq path)) as Hlen.
    fold lm in Hlen. change (len _) with 19 at 1. lia.
  - exists resp1, resp2. rewrite Hb. cbn [snd]. split_and!; assumption.
Qed.

Lemma DateModV_same_request_while_unchanged_witness :
  exists resp1 resp2,
    handle instant_a (MakeReq "/periodic/lastmod/functest/") = Ok resp1 /\
    http.StatusCode resp1 = 200 /\
    handle instant_b
      (DateModV_Build "/periodic/lastmod/functest/" resp1).2 = Ok resp2 /\
    http.StatusCode resp2 = 200.
Proof.
  apply (DateModV_same_request_while_unchanged instant_a instant_b
           "/periodic/lastmod/functest/"); reflexivity.
Defined.

(** X7: once the formatted timestamp of the version is no longer the
    captured one, the same request of [DateModV.Build] is answered 412 and
    its modded request 304. *)
Theorem DateModV_requests_after_change
    (now1 now2 : time.Time) (path : string) :
  use_lastmod_of (MakeReq path) = true ->
  current_lastmod now2 (MakeReq path) <> current_lastmod now1 (MakeReq path) ->
  exists resp1,
    handle now1 (MakeReq path) = Ok resp1 /\
    http.StatusCode resp1 = 200 /\
    handle now2 (DateModV_Build path resp1).2
    = Ok (error_response 412 "Document has been modified") /\
    handle now2 (DateModV_Build path resp1).1
    = Ok (error_response 304 "Document has not been modified").
Proof.
  intros Hl Hdiff.
  destruct (DateModV_Build_of_baseline now1 path Hl) as (resp1 & Hh1 & Hs1 & Hb).
  exists resp1. rewrite Hb. cbn [fst snd].
  assert (Hlm : current_lastmod now1 (MakeReq path) <> "")
    by apply current_lastmod_nonempty.
  revert Hdiff Hlm. clear Hb.
  generalize (current_lastmod now1 (MakeReq path)) as lm. intros lm Hdiff Hlm.
  assert (Hetag : forall key,
            http.CanonicalMIMEHeaderKey key <> "If-Match" ->
            http.CanonicalMIMEHeaderKey key <> "If-None-Match" ->
            etag_checks_pass now2 (add_header (MakeReq path) key lm)).
  { intros key H1 H2 _. unfold if_match, if_none_match.
    rewrite !one_header_get_other by assumption. split; [by left |].
    intros E. symmetry in E. by apply current_etag_nonempty in E. }
  split_and!; [exact Hh1 | exact Hs1 | |].
  - apply handle_returned; [reflexivity | discriminate |].
    apply validate_unmodified_since_fails.
    + apply Hetag; other_header.
    + exact Hl.
    + unfold if_unmodified_since.
      rewrite one_header_get_same by reflexivity. exact Hlm.
    + unfold if_unmodified_since.
      rewrite one_header_get_same by reflexivity.
      intros E. apply Hdiff. symmetry. exact E.
  - apply handle_returned; [reflexivity | discriminate |].
    apply validate_modified_since_differs.
    + apply Hetag; other_header.
    + exact Hl.
    + left. apply one_header_get_other. other_header.
    + unfold if_modified_since.
      rewrite one_header_get_same by reflexivity. exact Hlm.
    + unfold if_modified_since.
      rewrite one_header_get_same by reflexivity.
      intros E. apply Hdiff. symmetry. exact E.
Qed.

Lemma DateModV_requests_after_change_witness :
  exists resp1,
    handle instant_a (MakeReq "/periodic/lastmod/functest/") = Ok resp1 /\
    http.StatusCode resp1 = 200 /\
    handle next_bucket
      (DateModV_Build "/periodic/lastmod/functest/" resp1).2
    = Ok (error_response 412 "Document has been modified") /\
    handle next_bucket
      (DateModV_Build "/periodic/lastmod/functest/" resp1).1
    = Ok (error_response 304 "Document has not been modified").
Proof.
  apply (DateModV_requests_after_change instant_a next_bucket
           "/periodic/lastmod/functest/"); [reflexivity |].
  vm_compute. discriminate.
Defined.

(** ** The tag of the ETag channel *)

Lemma full_header_Get_E_Tag (use_lastmod : bool)
    (etag_enc then_header n : string) :
  http.Get (full_header true use_lastmod etag_enc then_header n) "E-Tag"
  = etag_enc.
Proof. destruct use_lastmod; reflexivity. Qed.

(** X8: the value that a 200 answer of an etag-enabled path carries under
    E-Tag is the quoted tag of the version.  Replayed while the tag is
    still current, it gets 304 in If-None-Match and 200 in If-Match; once
    the tag has changed it gets 200 in If-None-Match and 412 in
    If-Match. *)
Theorem E_Tag_value_round_trip (now1 now2 : time.Time) (path : string) :
  use_etags_of (MakeReq path) = true ->
  exists resp1,
    handle now1 (MakeReq path) = Ok resp1 /\
    http.StatusCode resp1 = 200 /\
    let tag := http.Get (http.RespHeader resp1) "E-Tag" in
    tag = current_etag now1 (MakeReq path) /\
    (current_etag now2 (MakeReq path) = tag ->
     handle now2 (add_header (MakeReq path) "If-None-Match" tag)
     = Ok (error_response 304 "Content matches on If-None-Match") /\
     exists resp2,
       handle now2 (add_header (MakeReq path) "If-Match" tag) = Ok resp2 /\
       http.StatusCode resp2 = 200) /\
    (current_etag now2 (MakeReq path) <> tag ->
     handle now2 (add_header (MakeReq path) "If-Match" tag)
     = Ok (error_response 412 "If-Match failed: ETag did not match") /\
     exists resp2,
       handle now2 (add_header (MakeReq path) "If-None-Match" tag) = Ok resp2 /\
       http.StatusCode resp2 = 200).
Proof.
  intros He. eexists. split.
  { apply baseline_answer. by apply etag_path_is_not_root. }
  split; [apply full_response_status |].
  rewrite full_response_header, He, full_header_Get_E_Tag.
  set (tag := current_etag now1 (MakeReq path)).
  assert (Htag : tag <> "") by apply current_etag_nonempty.
  assert (Hsize : forall key, len key <= 20 ->
            len key + len tag <= 3000).
  { intros key Hk. pose proof (len_current_etag now1 (MakeReq path)) as Hlen.
    fold tag in Hlen. lia. }
  cbn zeta. split; [done |]. split.
  - intros Hsame. split.
    + apply handle_returned; [done | done |].
      apply validate_if_none_match_hits; [exact He | |].
      * left. apply one_header_get_other. other_header.
      * unfold if_none_match. by rewrite one_header_get_same.
    + apply one_header_passes.
      * right. unfold if_match. by rewrite one_header_get_same.
      * unfold if_none_match. rewrite one_header_get_other by other_header.
        intros E. symmetry in E. by apply current_etag_nonempty in E.
      * left. apply one_header_get_other. other_header.
      * left. apply one_header_get_other. other_header.
      * apply (Hsize "If-Match"). vm_compute. discriminate.
  - intros Hdiff. split.
    + apply handle_returned; [done | done |].
      apply validate_if_match_fails; [exact He | |];
        unfold if_match; rewrite one_header_get_same by done;
        [done | by intros E].
    + apply one_header_passes.
      * left. apply one_header_get_other. other_header.
      * unfold if_none_match. rewrite one_header_get_same by done.
        by intros E.
      * left. apply one_header_get_other. other_header.
      * left. apply one_header_get_other. other_header.
      * apply (Hsize "If-None-Match"). vm_compute. discriminate.
Qed.

Lemma E_Tag_value_round_trip_witness :
  let path := "/clock/etag/functest/" in
  let tag := dquote +:+ "2026-11-01,10:30:45" +:+ dquote in
  (handle instant_b (add_header (MakeReq path) "If-None-Match" tag)
   = Ok (error_response 304 "Content matches on If-None-Match") /\
   exists resp2,
     handle instant_b (add_header (MakeReq path) "If-Match" tag) = Ok resp2 /\
     http.StatusCode resp2 = 200) /\
  (handle next_bucket (add_header (MakeReq path) "If-Match" tag)
   = Ok (error_response 412 "If-Match failed: ETag did not match") /\
   exists resp2,
     handle next_bucket (add_header (MakeReq path) "If-None-Match" tag)
     = Ok resp2 /\
     http.StatusCode resp2 = 200).
Proof.
  intros path tag. split.
  - destruct (E_Tag_value_round_trip instant_a instant_b path eq_refl)
      as (resp1 & Hh & _ & _ & Hsame & _).
    vm_compute in Hh. injection Hh as <-. apply Hsame. reflexivity.
  - destruct (E_Tag_value_round_trip instant_a next_bucket path eq_refl)
      as (resp1 & Hh & _ & _ & _ & Hdiff).
    vm_compute in Hh. injection Hh as <-. apply Hdiff.
    vm_compute. discriminate.
Defined.

(** X9: the two requests that [ETagV.Build] makes from any answer of the
    handler are answered 200 at every instant: they carry an empty
    If-None-Match or If-Match value, which no check looks at, so the
    modded request never gets 304 and the same request never gets 412. *)
Theorem ETagV_requests_are_answered_200
    (now1 now2 : time.Time) (r1 : http.Request) (resp1 : http.Response)
    (path : string) :
  handle now1 r1 = Ok resp1 ->
  exists modded_resp same_resp,
    handle now2 (ETagV_Build path resp1).1 = Ok modded_resp /\
    http.StatusCode modded_resp = 200 /\
    handle now2 (ETagV_Build path resp1).2 = Ok same_resp /\
    http.StatusCode same_resp = 200.
Proof.
  intros Hh. unfold ETagV_Build.
  rewrite (response_has_no_ETag now1 r1 resp1 Hh). cbn [fst snd].
  assert (Hany : forall key,
            len (http.CanonicalMIMEHeaderKey key) <= 20 ->
            exists resp,
              handle now2 (add_header (MakeReq path) key "") = Ok resp /\
              http.StatusCode resp = 200).
  { intros key Hk. apply one_header_passes.
    - left. unfold if_match. rewrite one_header_get. by case_decide.
    - unfold if_none_match. rewrite one_header_get.
      intros E. symmetry in E. apply current_etag_nonempty with (now := now2)
        (r := add_header (MakeReq path) key ""). by case_decide.
    - left. unfold if_unmodified_since. rewrite one_header_get. by case_decide.
    - left. unfold if_modified_since. rewrite one_header_get. by case_decide.
    - change (len "") with 0. lia. }
  destruct (Hany "If-None-Match") as (m & Hm & Hms); [vm_compute; discriminate |].
  destruct (Hany "If-Match") as (s0 & Hs & Hss); [vm_compute; discriminate |].
  by exists m, s0.
Qed.

Lemma ETagV_requests_are_answered_200_witness :
  exists resp1 modded_resp same_resp,
    handle instant_a (MakeReq "/clock/etag/functest/") = Ok resp1 /\
    handle next_bucket (ETagV_Build "/clock/etag/functest/" resp1).1
    = Ok modded_resp /\
    http.StatusCode modded_resp = 200 /\
    handle next_bucket (ETagV_Build "/clock/etag/functest/" resp1).2
    = Ok same_resp /\
    http.StatusCode same_resp = 200.
Proof.
  eexists. 
  destruct (ETagV_requests_are_answered_200 instant_a next_bucket
              (MakeReq "/clock/etag/functest/") _ "/clock/etag/functest/"
              eq_refl) as (m & s0 & H).
  exists m, s0. split; [reflexivity | exact H].
Defined.

(** ** What a successful run of writes leaves in the buffer *)

Lemma Write_Ok_inv (s s' : ByteWriter) (bs : list Byte.byte) (n : Z) :
  buffer_ok s ->
  Write s bs = Ok (s', n) ->
  n = Z.of_nat (length bs) /\ buffer_ok s' /\ cap s' = cap s /\
  pos s' = pos s + n /\ written s' = written s ++ bs.
Proof.
  intros Hok HW.
  destruct (Z_lt_le_dec (cap s) (pos s + Z.of_nat (length bs))) as [Hover | Hfit].
  - rewrite Write_overflow in HW by done. discriminate HW.
  - destruct (Write_fits s bs Hok Hfit) as (s2 & HW2 & Hok2 & Hcap & Hpos & Hwr).
    rewrite HW2 in HW. injection HW as <- <-. done.
Qed.

Lemma Fprint_Ok_inv (b b' : ByteWriter) (s : string) :
  buffer_ok b ->
  Fprint b s = Ok b' ->
  buffer_ok b' /\ cap b' = cap b /\
  written b' = written b ++ String.list_byte_of_string s.
Proof.
  intros Hok HF. unfold Fprint in HF.
  destruct (Write b _) as [[s' n] | p] eqn:HW; simpl in HF; [| done].
  injection HF as <-.
  destruct (Write_Ok_inv b s' _ n Hok HW) as (_ & Hok' & Hcap & _ & Hwr).
  done.
Qed.

Lemma echo_headers_Ok_inv (h : http.Header) (keys : list string) :
  forall b b' : ByteWriter,
  buffer_ok b ->
  echo_headers h keys b = Ok b' ->
  buffer_ok b' /\ cap b' = cap b /\
  exists extra, written b' = written b ++ extra.
Proof.
  induction keys as [| key keys IH]; intros b b' Hok He; simpl in He.
  - injection He as <-. split_and!; try done. exists []. by rewrite app_nil_r.
  - destruct (default [] (h !! key)) as [| v vs]; simpl in He; [done |].
    destruct (Fprintf_header b key v) as [b1 | p] eqn:HF; simpl in He; [| done].
    destruct (Fprint_Ok_inv b b1 _ Hok HF) as (Hok1 & Hcap1 & Hwr1).
    destruct (IH b1 b' Hok1 He) as (Hok' & Hcap' & extra & Hwr').
    split_and!; [done | congruence |].
    eexists. by rewrite Hwr', Hwr1, <- app_assoc.
Qed.

Lemma write_content_Ok_inv (print_headers : bool)
    (then_header now_header : string) (r : http.Request) (b : ByteWriter) :
  write_content print_headers then_header now_header r = Ok b ->
  buffer_ok b /\ cap b = 4096 /\
  exists extra,
    written b
    = String.list_byte_of_string ("Content date: " +:+ then_header +:+ newline)
      ++ String.list_byte_of_string ("Generated:    " +:+ now_header +:+ newline)
      ++ extra.
Proof.
  unfold write_content, Fprintln. intros Hw.
  destruct Buffy_ok as (Hok0 & Hcap0 & Hwr0).
  destruct (Fprint Buffy _) as [b1 | p] eqn:H1; simpl in Hw; [| done].
  destruct (Fprint_Ok_inv _ _ _ Hok0 H1) as (Hok1 & Hcap1 & Hwr1).
  destruct (Fprint b1 _) as [b2 | p] eqn:H2; simpl in Hw; [| done].
  destruct (Fprint_Ok_inv _ _ _ Hok1 H2) as (Hok2 & Hcap2 & Hwr2).
  rewrite Hwr0, app_nil_l in Hwr1.
  destruct print_headers.
  - destruct (Fprint b2 _) as [b3 | p] eqn:H3; simpl in Hw; [| done].
    destruct (Fprint_Ok_inv _ _ _ Hok2 H3) as (Hok3 & Hcap3 & Hwr3).
    destruct (echo_headers_Ok_inv _ _ _ _ Hok3 Hw) as (Hok & Hcap & extra & Hwr).
    split_and!; [done | congruence |].
    eexists. rewrite Hwr, Hwr3, Hwr2, Hwr1, <- !app_assoc. reflexivity.
  - injection Hw as <-. split_and!; [done | congruence |].
    exists []. by rewrite app_nil_r, Hwr2, Hwr1.
Qed.

Lemma string_of_list_byte_app (a b : list Byte.byte) :
  String.string_of_list_byte (a ++ b)
  = String.string_of_list_byte a +:+ String.string_of_list_byte b.
Proof.
  unfold String.string_of_list_byte.
  induction a as [| x a IH]; simpl; [done |]. by rewrite IH.
Qed.

Lemma length_string_of_list_byte (l : list Byte.byte) :
  String.length (String.string_of_list_byte l) = length l.
Proof.
  unfold String.string_of_list_byte.
  induction l as [| x l IH]; simpl; [done |]. by rewrite IH.
Qed.

Lemma len_AsString (b : ByteWriter) :
  buffer_ok b -> len (AsString b) = pos b.
Proof.
  intros [Hlo Hhi]. unfold len, AsString, cap in *.
  rewrite length_string_of_list_byte, length_take. lia.
Qed.

(** X10: a 200 answer never has a body of more than 4096 bytes, whatever
    the path and the request headers. *)
Theorem body_is_at_most_4096_bytes (now : time.Time) (r : http.Request)
    (resp : http.Response) :
  handle now r = Ok resp ->
  http.StatusCode resp = 200 ->
  len (http.Body resp) <= 4096.
Proof.
  intros Hh Hs.
  destruct (handle_cases now r resp Hh)
    as [(code & message & -> & Hcode)
       | [(-> & _) | (content & -> & _ & b & Hw & ->)]].
  - simpl in Hs. lia.
  - vm_compute. discriminate.
  - rewrite full_response_body.
    destruct (write_content_Ok_inv _ _ _ _ _ Hw) as (Hok & Hcap & _).
    rewrite len_AsString by done. unfold buffer_ok in Hok. lia.
Qed.

Lemma body_is_at_most_4096_bytes_witness :
  exists resp,
    handle instant_a all_flags_request = Ok resp /\
    len (http.Body resp) <= 4096.
Proof.
  eexists. split; [vm_compute; reflexivity |].
  apply (body_is_at_most_4096_bytes instant_a all_flags_request);
    reflexivity.
Defined.

(** ** The first line of a body *)

Lemma single_line_app (a b : string) :
  single_line (a +:+ b) = single_line a && single_line b.
Proof. induction a as [| c a IH]; simpl; [done |]. by rewrite IH, andb_assoc. Qed.

Lemma single_line_zeros (n : nat) : single_line (zeros n) = true.
Proof. induction n as [| n IH]; simpl; done. Qed.

Lemma digit_char_is_no_line_break (u : Z) :
  Ascii.eqb (digit_char (u - u / 10 * 10)) (Ascii.ascii_of_nat 10) = false.
Proof.
  pose proof (Z.mod_pos_bound u 10 ltac:(lia)) as Hd.
  replace (u - u / 10 * 10) with (u mod 10)
    by (rewrite Z.mod_eq by lia; lia).
  assert (Hcases : u mod 10 = 0 \/ u mod 10 = 1 \/ u mod 10 = 2 \/
                   u mod 10 = 3 \/ u mod 10 = 4 \/ u mod 10 = 5 \/
                   u mod 10 = 6 \/ u mod 10 = 7 \/ u mod 10 = 8 \/
                   u mod 10 = 9) by lia.
  repeat (destruct Hcases as [-> | Hcases]; [reflexivity |]).
  by rewrite Hcases.
Qed.

Lemma single_line_decimal_digits (fuel : nat) :
  forall (u : Z) (acc : string),
  single_line acc = true -> single_line (decimal_digits fuel u acc) = true.
Proof.
  induction fuel as [| fuel IH]; intros u acc Hacc; simpl; [done |].
  assert (Hstep : single_line (String (digit_char (u - u / 10 * 10)) acc) = true).
  { cbn [single_line]. rewrite digit_char_is_no_line_break, Hacc.
    reflexivity. }
  destruct (10 <=? u); [by apply IH | done].
Qed.

Lemma single_line_appendInt (x : Z) (width : nat) :
  single_line (appendInt x width) = true.
Proof.
  unfold appendInt. rewrite !single_line_app, single_line_zeros.
  rewrite single_line_decimal_digits by done.
  by destruct (x <? 0).
Qed.

Lemma single_line_Format_RFC1123Z (t : time.Time) :
  single_line (time.Format_RFC1123Z t) = true.
Proof.
  unfold time.Format_RFC1123Z, time.clock.
  rewrite !single_line_app, !single_line_appendInt.
  assert (Hw : single_line (time.weekday_abbrev (time.Weekday t)) = true).
  { unfold time.weekday_abbrev.
    repeat (match goal with |- context [match ?x with _ => _ end] =>
              destruct x end; try reflexivity). }
  assert (Hm : single_line (time.month_abbrev (time.Month t)) = true).
  { unfold time.month_abbrev.
    repeat (match goal with |- context [match ?x with _ => _ end] =>
              destruct x end; try reflexivity). }
  by rewrite Hw, Hm.
Qed.

Lemma head_split_on_line (s rest : string) :
  single_line s = true ->
  head (split_on (Ascii.ascii_of_nat 10) (s +:+ newline +:+ rest)) = Some s.
Proof.
  induction s as [| c s IH]; intros Hs; [reflexivity |].
  cbn [single_line] in Hs. apply andb_true_iff in Hs as [Hc Hs].
  change (String c s +:+ newline +:+ rest)
    with (String c (s +:+ newline +:+ rest)).
  change (split_on (Ascii.ascii_of_nat 10) (String c (s +:+ newline +:+ rest)))
    with (if Ascii.eqb c (Ascii.ascii_of_nat 10)
          then EmptyString :: split_on (Ascii.ascii_of_nat 10)
                                (s +:+ newline +:+ rest)
          else match split_on (Ascii.ascii_of_nat 10)
                       (s +:+ newline +:+ rest) with
               | piece :: pieces => String c piece :: pieces
               | [] => [String c EmptyString]
               end).
  apply negb_true_iff in Hc. rewrite Hc.
  specialize (IH Hs).
  destruct (split_on _ (s +:+ newline +:+ rest)) as [| piece pieces];
    [done |].
  simpl in IH. injection IH as ->. done.
Qed.

Lemma first_line_of_lines (s rest : string) :
  single_line s = true -> first_line (s +:+ newline +:+ rest) = s.
Proof. intros Hs. unfold first_line. by rewrite head_split_on_line. Qed.

Lemma append_assoc (a b c : string) : (a +:+ b) +:+ c = a +:+ b +:+ c.
Proof.
  induction a as [| x a IH]; [reflexivity |].
  change (String x ((a +:+ b) +:+ c) = String x (a +:+ b +:+ c)).
  by rewrite IH.
Qed.

(** X11: unless the path is [/], the first line of the body of a 200
    answer is the content date, that is the formatted timestamp of the
    current version after the words Content date; two such bodies have
    the same first line exactly when the formatted timestamps are the
    same. *)
Theorem first_line_is_the_content_date (now : time.Time) (r : http.Request)
    (resp : http.Response) :
  handle now r = Ok resp ->
  http.StatusCode resp = 200 ->
  http.URL_Path r <> "/" ->
  first_line (http.Body resp) = "Content date: " +:+ current_lastmod now r /\
  (forall now' r' resp',
     handle now' r' = Ok resp' -> http.StatusCode resp' = 200 ->
     http.URL_Path r' <> "/" ->
     (first_line (http.Body resp) = first_line (http.Body resp') <->
      current_lastmod now r = current_lastmod now' r')).
Proof.
  assert (Hfirst : forall now r resp,
            handle now r = Ok resp -> http.StatusCode resp = 200 ->
            http.URL_Path r <> "/" ->
            first_line (http.Body resp)
            = "Content date: " +:+ current_lastmod now r).
  { clear. intros now r resp Hh Hs Hp.
    destruct (handle_cases now r resp Hh)
      as [(code & message & -> & Hcode)
         | [(-> & Hroot & _) | (content & -> & _ & b & Hw & ->)]].
    - simpl in Hs. lia.
    - done.
    - rewrite full_response_body.
      destruct (write_content_Ok_inv _ _ _ _ _ Hw) as (_ & _ & extra & Hwr).
      rewrite AsString_written, Hwr, string_of_list_byte_app,
        String.string_of_list_byte_of_string.
      rewrite <- append_assoc, append_assoc.
      apply first_line_of_lines.
      rewrite single_line_app. unfold current_lastmod.
      by rewrite single_line_Format_RFC1123Z. }
  intros Hh Hs Hp. split; [by apply Hfirst |].
  intros now' r' resp' Hh' Hs' Hp'.
  rewrite (Hfirst now r resp), (Hfirst now' r' resp') by done.
  split; [| by intros ->].
  intros E. simpl in E. by simplify_eq.
Qed.

Lemma first_line_is_the_content_date_witness :
  exists resp,
    handle instant_a all_flags_request = Ok resp /\
    first_line (http.Body resp)
    = "Content date: Thu, 20 Dec 2012 20:12:12 +0000".
Proof.
  eexists. split; [vm_compute; reflexivity |].
  apply (first_line_is_the_content_date instant_a all_flags_request);
    [reflexivity | reflexivity | discriminate].
Defined.

(** ** The body comparison *)

(** X12: [CompareBodies] lets a test go on exactly when the first lines
    are equal or different as [same] asks and the bodies are equal or
    different as [identical] asks; the first-line verdict comes first.
    Asking for different first lines and identical bodies stops every
    test, and a body compared with itself passes only when both flags are
    set. *)
Theorem CompareBodies_verdict (body1 body2 : string) (same identical : bool) :
  (CompareBodies body1 body2 same identical = Passed <->
   (same = true <-> first_line body1 = first_line body2) /\
   (identical = true <-> body1 = body2)) /\
  (same = true -> first_line body1 <> first_line body2 ->
   CompareBodies body1 body2 same identical
   = Fatal "First lines of requests are different, expected to be same.") /\
  CompareBodies body1 body2 false true <> Passed /\
  (CompareBodies body1 body1 same identical = Passed <->
   same = true /\ identical = true).
Proof.
  assert (Hiff : forall b1 b2 sm idl,
            CompareBodies b1 b2 sm idl = Passed <->
            (sm = true <-> first_line b1 = first_line b2) /\
            (idl = true <-> b1 = b2)).
  { clear. intros b1 b2 sm idl. unfold CompareBodies.
    destruct (String.eqb_spec (first_line b1) (first_line b2)) as [El | El];
      destruct (String.eqb_spec b1 b2) as [Eb | Eb];
      destruct sm, idl; cbn [andb negb]; split;
      first [ discriminate
            | intros _; repeat split; intros; first [assumption | discriminate
                                                      | congruence]
            | intros [[H1 H2] [H3 H4]]; first [reflexivity | exfalso; auto; fail
                                               | exfalso; discriminate (H2 El)
                                               | exfalso; discriminate (H4 Eb)
                                               | exfalso; congruence ] ]. }
  split_and!.
  - apply Hiff.
  - intros -> Hne. unfold CompareBodies.
    by destruct (String.eqb_spec (first_line body1) (first_line body2)).
  - rewrite Hiff. intros [[_ H1] [H2 _]].
    specialize (H2 eq_refl). subst. by specialize (H1 eq_refl).
  - rewrite Hiff. split.
    + intros [[_ H1] [_ H2]]. auto.
    + intros [-> ->]. done.
Qed.

(** ** The order of the echoed headers *)

Lemma ascii_compare_trans (a b c : Ascii.ascii) (o : comparison) :
  Ascii.compare a b = o -> Ascii.compare b c = o -> Ascii.compare a c = o.
Proof.
  unfold Ascii.compare. intros H1 H2. destruct o.
  - apply N.compare_eq_iff in H1, H2. apply N.compare_eq_iff. congruence.
  - apply N.compare_lt_iff in H1. apply N.compare_lt_iff in H2.
    apply N.compare_lt_iff. eapply N.lt_trans; eassumption.
  - apply N.compare_gt_iff in H1. apply N.compare_gt_iff in H2.
    apply N.compare_gt_iff. eapply N.lt_trans; eassumption.
Qed.

Lemma string_compare_Lt_trans (s1 : string) :
  forall s2 s3 : string,
  String.compare s1 s2 = Lt -> String.compare s2 s3 = Lt ->
  String.compare s1 s3 = Lt.
Proof.
  induction s1 as [| c1 s1 IH]; intros [| c2 s2] [| c3 s3] H12 H23;
    simpl in *; try done.
  destruct (Ascii.compare c1 c2) eqn:E12; try done;
    destruct (Ascii.compare c2 c3) eqn:E23; try done.
  - rewrite (ascii_compare_trans c1 c2 c3 Eq E12 E23). by apply (IH s2).
  - apply Ascii.compare_eq_iff in E12 as ->. by rewrite E23.
  - apply Ascii.compare_eq_iff in E23 as <-. by rewrite E12.
  - by rewrite (ascii_compare_trans c1 c2 c3 Lt E12 E23).
Qed.

Global Instance string_le_trans : Transitive string_le.
Proof.
  intros s1 s2 s3. unfold string_le, String.leb. intros H12 H23.
  destruct (String.compare s1 s2) eqn:E12; [| | done].
  - apply String.compare_eq_iff in E12 as ->. done.
  - destruct (String.compare s2 s3) eqn:E23; [| | done].
    + apply String.compare_eq_iff in E23 as <-. by rewrite E12.
    + by rewrite (string_compare_Lt_trans s1 s2 s3 E12 E23).
Qed.

Global Instance string_le_total : Total string_le.
Proof.
  intros s1 s2. unfold string_le.
  destruct (String.leb_total s1 s2) as [-> | ->]; [by left | by right].
Qed.

(** X13: the keys that the headers echo goes through are the keys of the
    request header map, each once, in ascending byte-wise order. *)
Theorem echoed_keys_are_sorted (h : http.Header) :
  StronglySorted string_le (sorted_keys h) /\
  NoDup (sorted_keys h) /\
  (forall key, key ∈ sorted_keys h <-> is_Some (h !! key)) /\
  length (sorted_keys h) = size h.
Proof.
  assert (Hperm : sorted_keys h ≡ₚ (map_to_list h).*1).
  { unfold sorted_keys. apply merge_sort_Permutation. }
  split_and!.
  - unfold sorted_keys. apply StronglySorted_merge_sort; apply _.
  - rewrite Hperm. apply NoDup_fst_map_to_list.
  - intros key. rewrite Hperm, list_elem_of_fmap. split.
    + intros ([k vs] & -> & Hin). apply elem_of_map_to_list in Hin. by exists vs.
    + intros [vs Hvs]. exists (key, vs). split; [done |].
      by apply elem_of_map_to_list.
  - by rewrite Hperm, length_fmap, length_map_to_list.
Qed.

Example echoed_keys_example :
  sorted_keys (http.ReqHeader all_flags_request) = ["Alpha"; "Zeta"].
Proof. reflexivity. Qed.

(** ** What one write changes *)

Lemma Write_fits_eq (s : ByteWriter) (bs : list Byte.byte) :
  buffer_ok s ->
  pos s + Z.of_nat (length bs) <= cap s ->
  Write s bs
  = Ok (mkByteWriter
          (take (Z.to_nat (pos s)) (buf s) ++ bs
           ++ drop (Z.to_nat (pos s + Z.of_nat (length bs))) (buf s))
          (pos s + Z.of_nat (length bs)),
        Z.of_nat (length bs)).
Proof.
  intros [Hlo Hhi] Hfit. unfold Write, copy_into_slice, cap in *.
  assert (Hcond : (0 <=? pos s) && (pos s <=? pos s + Z.of_nat (length bs))
                  && (pos s + Z.of_nat (length bs)
                      <=? Z.of_nat (length (buf s))) = true).
  { rewrite !andb_true_iff, !Z.leb_le. lia. }
  rewrite Hcond. cbn [mbind result_bind mret result_ret].
  replace (pos s + Z.of_nat (length bs) - pos s) with (Z.of_nat (length bs))
    by lia.
  rewrite Nat2Z.id, firstn_all. reflexivity.
Qed.

(** X14: a [Write] that returns reports the number of bytes given, moves
    the position forward by that number, keeps the size of the buffer,
    puts the bytes at the old position and leaves every other byte of the
    buffer as it was, so that [AsString] grows by exactly those bytes.  A
    [Write] of no bytes changes nothing, even on a full buffer. *)
Theorem Write_appends_in_place (s s' : ByteWriter) (bs : list Byte.byte)
    (n : Z) :
  buffer_ok s ->
  Write s bs = Ok (s', n) ->
  n = Z.of_nat (length bs) /\
  pos s' = pos s + n /\
  length (buf s') = length (buf s) /\
  (forall i : nat,
     Z.of_nat i < pos s \/ pos s + n <= Z.of_nat i ->
     buf s' !! i = buf s !! i) /\
  (forall i : nat,
     (i < length bs)%nat -> buf s' !! (Z.to_nat (pos s) + i)%nat = bs !! i) /\
  AsString s' = AsString s +:+ String.string_of_list_byte bs /\
  Write s [] = Ok (s, 0).
Proof.
  intros Hok HW.
  destruct (Write_Ok_inv s s' bs n Hok HW) as (Hn & Hok' & Hcap & Hpos & Hwr).
  assert (Hfit : pos s + Z.of_nat (length bs) <= cap s).
  { unfold buffer_ok in Hok'. lia. }
  assert (Hbuf : buf s' = take (Z.to_nat (pos s)) (buf s) ++ bs
                          ++ drop (Z.to_nat (pos s + n)) (buf s)).
  { rewrite (Write_fits_eq s bs Hok Hfit) in HW. injection HW as Hs' _.
    rewrite <- Hs', Hn. reflexivity. }
  assert (Hempty : Write s [] = Ok (s, 0)).
  { rewrite (Write_fits_eq s [] Hok).
    - cbn [length app]. replace (pos s + Z.of_nat 0) with (pos s) by lia.
      rewrite take_drop. by destruct s.
    - destruct Hok. cbn [length]. lia. }
  destruct Hok as [Hlo Hhi]. unfold cap in *.
  assert (Hlt : length (take (Z.to_nat (pos s)) (buf s)) = Z.to_nat (pos s)).
  { rewrite length_take. lia. }
  split_and!; [exact Hn | exact Hpos | lia | | | | exact Hempty].
  - intros i [Hi | Hi]; rewrite Hbuf.
    + rewrite lookup_app_l by lia. apply lookup_take_lt. lia.
    + rewrite lookup_app_r by lia. rewrite lookup_app_r by lia.
      rewrite lookup_drop, Hlt. f_equal. lia.
  - intros i Hi. rewrite Hbuf.
    rewrite lookup_app_r by lia. rewrite lookup_app_l by lia.
    f_equal. lia.
  - by rewrite !AsString_written, Hwr, string_of_list_byte_app.
Qed.

Lemma Write_appends_in_place_witness :
  exists s' n,
    Write Buffy (String.list_byte_of_string "abc") = Ok (s', n) /\
    n = 3 /\ pos s' = 3 /\ AsString s' = "abc" /\
    buf s' !! 3%nat = Some Byte.x00 /\
    length (buf s') = 4096%nat.
Proof.
  pose (bs := String.list_byte_of_string "abc").
  destruct (Write Buffy bs) as [[s' n] | p] eqn:HW;
    [| vm_compute in HW; discriminate HW].
  destruct Buffy_ok as (Hok & _).
  destruct (Write_appends_in_place Buffy s' bs n Hok HW)
    as (Hn & Hpos & Hlen & Hkeep & _ & Hstr & _).
  exists s', n. split; [exact HW |].
  split; [exact Hn |]. split; [rewrite Hpos, Hn; reflexivity |].
  split; [exact Hstr |].
  split.
  - rewrite Hkeep; [reflexivity |]. right. rewrite Hn. vm_compute. discriminate.
  - rewrite Hlen. apply length_replicate.
Defined.

(** ** The path flags *)

Lemma substring_at_prefix (sub : string) :
  forall s : string,
  String.substring 0 (String.length sub) s = sub -> exists rest, s = sub +:+ rest.
Proof.
  induction sub as [| c sub IH]; intros s Hs.
  - by exists s.
  - destruct s as [| d s]; [discriminate Hs |].
    cbn [String.length String.substring] in Hs. injection Hs as -> Hs.
    destruct (IH s Hs) as [rest ->]. by exists rest.
Qed.

Lemma substring_occurrence (sub : string) (m : nat) :
  sub <> "" ->
  forall s : string,
  String.substring m (String.length sub) s = sub ->
  exists before rest, s = before +:+ sub +:+ rest.
Proof.
  intros Hsub. induction m as [| m IH]; intros s Hs.
  - destruct (substring_at_prefix sub s Hs) as [rest ->]. by exists "", rest.
  - destruct s as [| d s].
    + destruct sub; [done | discriminate Hs].
    + destruct sub as [| c sub]; [done |].
      cbn [String.substring] in Hs.
      destruct (IH s Hs) as (before & rest & ->).
      by exists (String d before), rest.
Qed.

Lemma substring_of_occurrence (before sub rest : string) :
  String.substring (String.length before) (String.length sub)
    (before +:+ sub +:+ rest) = sub.
Proof.
  induction before as [| d before IH].
  - change ("" +:+ sub +:+ rest) with (sub +:+ rest). cbn [String.length].
    induction sub as [| c sub IHs]; [by destruct rest |].
    change (String c sub +:+ rest) with (String c (sub +:+ rest)).
    cbn [String.length String.substring]. by rewrite IHs.
  - change (String d before +:+ sub +:+ rest)
      with (String d (before +:+ sub +:+ rest)).
    cbn [String.length String.substring]. exact IH.
Qed.

Lemma strings_Index_found_iff (s sub : string) :
  sub <> "" ->
  strings_Index s sub <> -1 <-> exists before rest, s = before +:+ sub +:+ rest.
Proof.
  intros Hsub. unfold strings_Index.
  destruct (String.index 0 sub s) as [m |] eqn:Hi.
  - split; [intros _ | lia].
    apply String.index_correct1 in Hi.
    by apply (substring_occurrence sub m).
  - split; [done |]. intros (before & rest & ->).
    exfalso.
    apply (String.index_correct3 0 (String.length before) sub _ Hi Hsub);
      [lia |].
    apply substring_of_occurrence.
Qed.

(** X15: each of the four flags of [handle] is on exactly when its segment
    occurs somewhere in the path, whatever stands before and after it. *)
Theorem flags_are_substring_tests (r : http.Request) :
  (print_headers_of r = true <->
   exists before rest, http.URL_Path r = before +:+ "/headers/" +:+ rest) /\
  (use_etags_of r = true <->
   exists before rest, http.URL_Path r = before +:+ "/etag/" +:+ rest) /\
  (use_lastmod_of r = true <->
   exists before rest, http.URL_Path r = before +:+ "/lastmod/" +:+ rest) /\
  (be_static_of r = true <->
   exists before rest, http.URL_Path r = before +:+ "/static/" +:+ rest).
Proof.
  assert (Hflag : forall segment, segment <> "" ->
            negb (strings_Index (http.URL_Path r) segment =? -1) = true <->
            exists before rest,
              http.URL_Path r = before +:+ segment +:+ rest).
  { intros segment Hseg.
    rewrite <- (strings_Index_found_iff _ segment Hseg).
    rewrite negb_true_iff, Z.eqb_neq. done. }
  unfold print_headers_of, use_etags_of, use_lastmod_of, be_static_of.
  split_and!; apply Hflag; discriminate.
Qed.

Example flags_of_a_combined_path :
  let r := MakeReq "/resource/headers/static/blahblah/etag/anythingyoulike/" in
  print_headers_of r = true /\ use_etags_of r = true /\
  use_lastmod_of r = false /\ be_static_of r = true.
Proof. repeat split. Qed.

(** ** Tags and versions *)

Lemma appendInt_two_digits (x : Z) :
  0 <= x <= 99 -> appendInt x 2 = two_digits x.
Proof.
  intros Hx.
  assert (Hall : forallb (fun n => String.eqb (appendInt (Z.of_nat n) 2)
                                     (two_digits (Z.of_nat n)))
                   (seq 0 100) = true) by (vm_compute; reflexivity).
  rewrite forallb_forall in Hall.
  specialize (Hall (Z.to_nat x)).
  rewrite Z2Nat.id in Hall by lia.
  apply String.eqb_eq, Hall, in_seq. lia.
Qed.

Lemma appendInt_four_digits (x : Z) :
  0 <= x <= 9999 -> appendInt x 4 = four_digits x.
Proof.
  intros Hx.
  assert (Hall : forallb (fun n => String.eqb (appendInt (Z.of_nat n) 4)
                                     (four_digits (Z.of_nat n)))
                   (seq 0 (Z.to_nat 10000)) = true)
    by (vm_compute; reflexivity).
  rewrite forallb_forall in Hall.
  specialize (Hall (Z.to_nat x)).
  rewrite Z2Nat.id in Hall by lia.
  apply String.eqb_eq, Hall, in_seq. lia.
Qed.

Lemma digit_char_inj (a b : Z) :
  0 <= a <= 9 -> 0 <= b <= 9 -> digit_char a = digit_char b -> a = b.
Proof.
  intros Ha Hb E. unfold digit_char in E.
  apply (f_equal Ascii.nat_of_ascii) in E.
  rewrite !Ascii.nat_ascii_embedding in E by lia. lia.
Qed.

Lemma two_digits_inj (x y : Z) :
  0 <= x <= 99 -> 0 <= y <= 99 -> two_digits x = two_digits y -> x = y.
Proof.
  intros Hx Hy E. unfold two_digits in E. injection E as E1 E0.
  apply digit_char_inj in E1; [| Z.div_mod_to_equations; lia ..].
  apply digit_char_inj in E0; [| Z.div_mod_to_equations; lia ..].
  Z.div_mod_to_equations. lia.
Qed.

Lemma four_digits_inj (x y : Z) :
  0 <= x <= 9999 -> 0 <= y <= 9999 -> four_digits x = four_digits y -> x = y.
Proof.
  intros Hx Hy E. unfold four_digits in E. injection E as E3 E2 E1 E0.
  apply digit_char_inj in E3; [| Z.div_mod_to_equations; lia ..].
  apply digit_char_inj in E2; [| Z.div_mod_to_equations; lia ..].
  apply digit_char_inj in E1; [| Z.div_mod_to_equations; lia ..].
  apply digit_char_inj in E0; [| Z.div_mod_to_equations; lia ..].
  Z.div_mod_to_equations. lia.
Qed.

Lemma append_inj_same_length (a a' b b' : string) :
  String.length a = String.length a' ->
  a +:+ b = a' +:+ b' -> a = a' /\ b = b'.
Proof.
  revert a'. induction a as [| c a IH]; intros [| c' a'] Hlen E;
    try discriminate Hlen.
  - done.
  - change (String c (a +:+ b) = String c' (a' +:+ b')) in E.
    injection E as -> E. injection Hlen as Hlen.
    destruct (IH a' Hlen E) as [-> ->]. done.
Qed.

Lemma weekday_abbrev_length (w : Z) :
  String.length (time.weekday_abbrev w) = 3%nat.
Proof. pose proof (len_weekday_abbrev w) as H. unfold len in H. lia. Qed.

Lemma month_abbrev_length (m : Z) :
  String.length (time.month_abbrev m) = 3%nat.
Proof. pose proof (len_month_abbrev m) as H. unfold len in H. lia. Qed.

Lemma month_abbrev_inj (m1 m2 : Z) :
  1 <= m1 <= 12 -> 1 <= m2 <= 12 ->
  time.month_abbrev m1 = time.month_abbrev m2 -> m1 = m2.
Proof.
  intros H1 H2.
  assert (C1 : m1 = 1 \/ m1 = 2 \/ m1 = 3 \/ m1 = 4 \/ m1 = 5 \/ m1 = 6 \/
               m1 = 7 \/ m1 = 8 \/ m1 = 9 \/ m1 = 10 \/ m1 = 11 \/ m1 = 12)
    by lia.
  assert (C2 : m2 = 1 \/ m2 = 2 \/ m2 = 3 \/ m2 = 4 \/ m2 = 5 \/ m2 = 6 \/
               m2 = 7 \/ m2 = 8 \/ m2 = 9 \/ m2 = 10 \/ m2 = 11 \/ m2 = 12)
    by lia.
  clear H1 H2.
  repeat (destruct C1 as [-> | C1]);
    try subst m1;
    repeat (destruct C2 as [-> | C2]);
    try subst m2; intros E; first [reflexivity | discriminate E].
Qed.

Lemma clock_inj (t1 t2 : time.Time) :
  time.in_range t1 -> time.in_range t2 ->
  time.clock t1 = time.clock t2 ->
  time.Hour t1 = time.Hour t2 /\ time.Minute t1 = time.Minute t2 /\
  time.Second t1 = time.Second t2.
Proof.
  intros (_ & _ & Hh1 & Hm1 & Hs1 & _) (_ & _ & Hh2 & Hm2 & Hs2 & _) E.
  unfold time.clock in E.
  rewrite !appendInt_two_digits in E by lia.
  apply append_inj_same_length in E as [Eh E]; [| reflexivity].
  apply append_inj_same_length in E as [_ E]; [| reflexivity].
  apply append_inj_same_length in E as [Em E]; [| reflexivity].
  apply append_inj_same_length in E as [_ Es]; [| reflexivity].
  apply two_digits_inj in Eh; [| lia ..].
  apply two_digits_inj in Em; [| lia ..].
  apply two_digits_inj in Es; [| lia ..].
  split_and!; assumption.
Qed.

Lemma clock_length (t : time.Time) :
  time.in_range t -> String.length (time.clock t) = 8%nat.
Proof.
  intros (_ & _ & Hh & Hm & Hs & _). unfold time.clock.
  rewrite !appendInt_two_digits by lia. reflexivity.
Qed.

Lemma Format_etag_inj (t1 t2 : time.Time) :
  time.in_range t1 -> time.in_range t2 ->
  four_digit_year t1 -> four_digit_year t2 ->
  time.Format_etag t1 = time.Format_etag t2 ->
  time.Year t1 = time.Year t2 /\ time.Month t1 = time.Month t2 /\
  time.Day t1 = time.Day t2 /\ time.Hour t1 = time.Hour t2 /\
  time.Minute t1 = time.Minute t2 /\ time.Second t1 = time.Second t2.
Proof.
  intros Hr1 Hr2 Hy1 Hy2 E.
  pose proof Hr1 as (Hmo1 & Hd1 & _). pose proof Hr2 as (Hmo2 & Hd2 & _).
  unfold four_digit_year in *. unfold time.Format_etag in E.
  rewrite !appendInt_four_digits, !appendInt_two_digits in E by lia.
  apply append_inj_same_length in E as [Ey E]; [| reflexivity].
  apply append_inj_same_length in E as [_ E]; [| reflexivity].
  apply append_inj_same_length in E as [Emo E]; [| reflexivity].
  apply append_inj_same_length in E as [_ E]; [| reflexivity].
  apply append_inj_same_length in E as [Ed E]; [| reflexivity].
  apply append_inj_same_length in E as [_ E]; [| reflexivity].
  apply four_digits_inj in Ey; [| lia ..].
  apply two_digits_inj in Emo; [| lia ..].
  apply two_digits_inj in Ed; [| lia ..].
  destruct (clock_inj t1 t2 Hr1 Hr2 E) as (Eh & Emi & Es). done.
Qed.

Lemma Format_RFC1123Z_inj (t1 t2 : time.Time) :
  time.in_range t1 -> time.in_range t2 ->
  four_digit_year t1 -> four_digit_year t2 ->
  time.Format_RFC1123Z t1 = time.Format_RFC1123Z t2 ->
  time.Year t1 = time.Year t2 /\ time.Month t1 = time.Month t2 /\
  time.Day t1 = time.Day t2 /\ time.Hour t1 = time.Hour t2 /\
  time.Minute t1 = time.Minute t2 /\ time.Second t1 = time.Second t2.
Proof.
  intros Hr1 Hr2 Hy1 Hy2 E.
  pose proof Hr1 as (Hmo1 & Hd1 & _). pose proof Hr2 as (Hmo2 & Hd2 & _).
  unfold four_digit_year in *. unfold time.Format_RFC1123Z in E.
  rewrite !appendInt_four_digits, !appendInt_two_digits in E by lia.
  apply append_inj_same_length in E as [_ E];
    [| by rewrite !weekday_abbrev_length].
  apply append_inj_same_length in E as [_ E]; [| reflexivity].
  apply append_inj_same_length in E as [Ed E]; [| reflexivity].
  apply append_inj_same_length in E as [_ E]; [| reflexivity].
  apply append_inj_same_length in E as [Emo E];
    [| by rewrite !month_abbrev_length].
  apply append_inj_same_length in E as [_ E]; [| reflexivity].
  apply append_inj_same_length in E as [Ey E]; [| reflexivity].
  apply append_inj_same_length in E as [_ E]; [| reflexivity].
  apply append_inj_same_length in E as [E _];
    [| by rewrite !clock_length].
  apply four_digits_inj in Ey; [| lia ..].
  apply month_abbrev_inj in Emo; [| lia ..].
  apply two_digits_inj in Ed; [| lia ..].
  destruct (clock_inj t1 t2 Hr1 Hr2 E) as (Eh & Emi & Es). done.
Qed.

Lemma Format_etag_length (t : time.Time) :
  time.in_range t -> four_digit_year t ->
  String.length (time.Format_etag t) = 19%nat.
Proof.
  intros Hr Hy. pose proof Hr as (Hmo & Hd & Hh & Hm & Hs & _).
  unfold four_digit_year in Hy. unfold time.Format_etag, time.clock.
  rewrite !appendInt_four_digits, !appendInt_two_digits by lia. reflexivity.
Qed.

Lemma content_time_four_digit_year (G : Z) (be_static : bool)
    (now : time.Time) :
  four_digit_year now -> four_digit_year (content_time G be_static now).
Proof.
  unfold four_digit_year, content_time, time.Date.
  destruct be_static; simpl; lia.
Qed.

Lemma content_time_eq (G : Z) (be_static : bool) (now1 now2 : time.Time) :
  let v1 := content_time G be_static now1 in
  let v2 := content_time G be_static now2 in
  time.Year v1 = time.Year v2 /\ time.Month v1 = time.Month v2 /\
  time.Day v1 = time.Day v2 /\ time.Hour v1 = time.Hour v2 /\
  time.Minute v1 = time.Minute v2 /\ time.Second v1 = time.Second v2 ->
  v1 = v2.
Proof.
  unfold content_time, time.Date. destruct be_static; [done |].
  simpl. intros (-> & -> & -> & -> & -> & ->). reflexivity.
Qed.

(** X16: for instants with in-range fields and a year of at most four
    digits, the quoted tag and the formatted timestamp name the version:
    each of them is the same at two instants exactly when the version is
    the same. *)
Theorem tags_identify_the_version (now1 now2 : time.Time)
    (r : http.Request) :
  time.in_range now1 -> time.in_range now2 ->
  four_digit_year now1 -> four_digit_year now2 ->
  (current_etag now1 r = current_etag now2 r <->
   current_version now1 r = current_version now2 r) /\
  (current_lastmod now1 r = current_lastmod now2 r <->
   current_version now1 r = current_version now2 r).
Proof.
  intros Hr1 Hr2 Hy1 Hy2.
  assert (HG : 0 < granularity_in_seconds) by reflexivity.
  pose proof (content_time_in_range _ (be_static_of r) now1 HG Hr1) as Hv1.
  pose proof (content_time_in_range _ (be_static_of r) now2 HG Hr2) as Hv2.
  pose proof (content_time_four_digit_year granularity_in_seconds
                (be_static_of r) now1 Hy1) as Hvy1.
  pose proof (content_time_four_digit_year granularity_in_seconds
                (be_static_of r) now2 Hy2) as Hvy2.
  split;
    (split; [| intros Ev; unfold current_etag, current_lastmod;
               rewrite Ev; reflexivity]);
    intros E.
  - unfold current_etag in E.
    apply append_inj_same_length in E as [_ E]; [| reflexivity].
    apply append_inj_same_length in E as [E _];
      [| unfold current_version; by rewrite !Format_etag_length].
    apply content_time_eq. by apply Format_etag_inj.
  - apply content_time_eq. by apply Format_RFC1123Z_inj.
Qed.

Lemma tags_identify_the_version_witness :
  current_etag instant_a (MakeReq "/clock/etag/functest/")
  = current_etag instant_b (MakeReq "/clock/etag/functest/") /\
  current_lastmod instant_a (MakeReq "/clock/lastmod/functest/")
  <> current_lastmod next_bucket (MakeReq "/clock/lastmod/functest/").
Proof.
  split.
  - apply (tags_identify_the_version instant_a instant_b
             (MakeReq "/clock/etag/functest/"));
      try reflexivity; vm_compute; intuition discriminate.
  - intros E.
    apply (tags_identify_the_version instant_a next_bucket
             (MakeReq "/clock/lastmod/functest/")) in E;
      [discriminate E | | | |]; vm_compute; intuition discriminate.
Defined.

(** ** The unconditional request and the causes of 304 and 412 *)

(** X17: the unconditional GET of the harness is answered 200 for every
    path and at every instant (it never overflows the buffer); for the
    path [/] the body is the help text, otherwise it is the content-date
    line, the generation line and, on a headers path, the empty headers
    section. *)
Theorem baseline_request_answers_200 (now : time.Time) (path : string) :
  exists resp,
    handle now (MakeReq path) = Ok resp /\
    http.StatusCode resp = 200 /\
    http.Body resp
    = (if String.eqb path "/" then help_text
       else if print_headers_of (MakeReq path)
       then ("Content date: " +:+ current_lastmod now (MakeReq path)
             +:+ newline) +:+
            ("Generated:    " +:+ time.Format_RFC1123Z now +:+ newline) +:+
            (newline +:+ "REQUEST HEADERS:" +:+ newline)
       else ("Content date: " +:+ current_lastmod now (MakeReq path)
             +:+ newline) +:+
            ("Generated:    " +:+ time.Format_RFC1123Z now +:+ newline)).
Proof.
  destruct (String.eqb_spec path "/") as [-> | Hp].
  - exists help_response. split; [| split]; reflexivity.
  - eexists. split; [by apply baseline_answer |].
    rewrite full_response_status, full_response_body.
    split; [reflexivity |].
    unfold content_text, content_chunks. rewrite sorted_keys_empty.
    destruct (print_headers_of (MakeReq path)); reflexivity.
Qed.

Lemma validate_returned_cause (now : time.Time) (r : http.Request)
    (w : ResponseWriter) :
  validate now r = Returned w ->
  (w = respond new_writer 412 "If-Match failed: ETag did not match" /\
   use_etags_of r = true /\ if_match r <> "" /\
   if_match r <> current_etag now r) \/
  (w = respond new_writer 304 "Content matches on If-None-Match" /\
   use_etags_of r = true /\ if_none_match r = current_etag now r) \/
  (w = respond new_writer 412 "Document has been modified" /\
   use_lastmod_of r = true /\ if_unmodified_since r <> "" /\
   if_unmodified_since r <> current_lastmod now r) \/
  (w = respond new_writer 304 "Document has not been modified" /\
   use_lastmod_of r = true /\ if_modified_since r <> "" /\
   if_modified_since r <> current_lastmod now r).
Proof.
  unfold validate.
  destruct (validate_etags _ _ _ _ _) as [w1 | headers] eqn:He.
  - intros [= <-]. unfold validate_etags in He.
    destruct (use_etags_of r) eqn:Hflag; [| discriminate He].
    fold (if_match r) (if_none_match r) in He. fold (current_etag now r) in He.
    unfold current_etag at 1 3 in He. rewrite etag_enc_not_star in He.
    fold (current_etag now r) in He. rewrite !len_positive_iff in He.
    destruct (String.eqb_spec (if_match r) "") as [Em | Em];
      destruct (String.eqb_spec (current_etag now r) (if_match r)) as [Ec | Ec];
      cbn [negb andb orb] in He.
    + destruct (String.eqb_spec (if_none_match r) "");
        destruct (String.eqb_spec (current_etag now r) (if_none_match r));
        cbn [negb andb orb] in He; try discriminate He.
      injection He as <-. right. left. done.
    + destruct (String.eqb_spec (if_none_match r) "");
        destruct (String.eqb_spec (current_etag now r) (if_none_match r));
        cbn [negb andb orb] in He; try discriminate He.
      injection He as <-. right. left. done.
    + destruct (String.eqb_spec (if_none_match r) "");
        destruct (String.eqb_spec (current_etag now r) (if_none_match r));
        cbn [negb andb orb] in He; try discriminate He.
      injection He as <-. right. left. done.
    + injection He as <-. left. split_and!; try done.
  - unfold validate_since.
    destruct (use_lastmod_of r) eqn:Hflag; [| discriminate].
    fold (if_unmodified_since r) (if_modified_since r).
    rewrite !len_positive_iff.
    destruct (String.eqb_spec (if_unmodified_since r) "") as [Eu | Eu];
      destruct (String.eqb_spec (if_unmodified_since r) (current_lastmod now r))
        as [Ec | Ec]; cbn [negb andb];
      try (intros [= <-]; right; right; left; done);
      destruct (String.eqb_spec (if_modified_since r) "") as [Ei | Ei];
      destruct (String.eqb_spec (if_modified_since r) (current_lastmod now r))
        as [Ed | Ed]; cbn [negb andb]; try discriminate;
      intros [= <-]; right; right; right; done.
Qed.

(** X18: a 412 or a 304 always has its cause in the request.  A 412 comes
    from a present If-Match that is not the current tag on an etag path,
    or from a present If-Unmodified-Since that is not the current
    timestamp on a lastmod path; a 304 comes from an If-None-Match equal
    to the current tag on an etag path, or from a present
    If-Modified-Since that is not the current timestamp on a lastmod
    path.  A path with neither segment is never answered 304 or 412. *)
Theorem conditional_answers_have_a_cause (now : time.Time)
    (r : http.Request) (resp : http.Response) :
  handle now r = Ok resp ->
  (http.StatusCode resp = 412 ->
   http.Method r = "GET" /\
   ((use_etags_of r = true /\ if_match r <> "" /\
     if_match r <> current_etag now r) \/
    (use_lastmod_of r = true /\ if_unmodified_since r <> "" /\
     if_unmodified_since r <> current_lastmod now r))) /\
  (http.StatusCode resp = 304 ->
   http.Method r = "GET" /\
   ((use_etags_of r = true /\ if_none_match r = current_etag now r) \/
    (use_lastmod_of r = true /\ if_modified_since r <> "" /\
     if_modified_since r <> current_lastmod now r))) /\
  (use_etags_of r = false -> use_lastmod_of r = false ->
   http.StatusCode resp = 200 \/ http.StatusCode resp = 405).
Proof.
  intros Hh.
  destruct (String.eqb_spec (http.Method r) "GET") as [Hm | Hm].
  - rewrite (handle_GET now r Hm) in Hh.
    destruct (validate now r) as [w | headers] eqn:Hv.
    + injection Hh as <-.
      destruct (validate_returned_cause now r w Hv)
        as [(-> & H) | [(-> & H) | [(-> & H) | (-> & H)]]];
        rewrite respond_error by discriminate;
        (split_and!; [intros Hs | intros Hs | intros He Hl]);
        try discriminate Hs; try (split; [exact Hm | tauto]);
        destruct H as (Hflag & _); congruence.
    + assert (Hs : http.StatusCode resp = 200).
      { destruct (String.eqb (http.URL_Path r) "/");
          [by injection Hh as <- |].
        destruct (write_content _ _ _ _) as [b | p]; simpl in Hh; [| done].
        injection Hh as <-. apply full_response_status. }
      rewrite Hs. split_and!; [discriminate | discriminate | by left].
  - rewrite (handle_not_GET now r Hm) in Hh. injection Hh as <-.
    split_and!; [discriminate | discriminate | by right].
Qed.

Lemma conditional_answers_have_a_cause_witness :
  let r := add_header (MakeReq "/plain/doc/") "If-Match" "anything" in
  exists resp,
    handle instant_a r = Ok resp /\
    (http.StatusCode resp = 200 \/ http.StatusCode resp = 405).
Proof.
  intros r. eexists. split; [vm_compute; reflexivity |].
  apply (conditional_answers_have_a_cause instant_a r); reflexivity.
Defined.

(** ** The wildcard in If-None-Match *)

(** C8, on the code: the second half of the evaluation order does not
    hold for the wildcard.  On an etag-enabled resource, a GET that passes
    the If-Match check and whose If-None-Match value is the wildcard is
    not stopped by the ETag block: the date channel is consulted, so a
    present If-Unmodified-Since that is not the current timestamp gives
    412; and when no date check stops the request the answer is 200, not
    304.  The handler compares the quoted wildcard with its own tag
    instead of the header value, as it does for If-Match. *)
Theorem wildcard_if_none_match_is_not_a_match
    (now : time.Time) (r : http.Request) :
  http.Method r = "GET" ->
  use_etags_of r = true ->
  if_match r = "" \/ if_match r = current_etag now r ->
  if_none_match r = "*" ->
  validate_etags (use_etags_of r) (current_version now r) r new_writer ∅
  = Continue (custom_headers true false (current_etag now r) "") /\
  (use_lastmod_of r = true ->
   if_unmodified_since r <> "" ->
   if_unmodified_since r <> current_lastmod now r ->
   handle now r = Ok (error_response 412 "Document has been modified")) /\
  (use_lastmod_of r = false \/
   (unmodified_since_passes now r /\
    (if_modified_since r = "" \/
     if_modified_since r = current_lastmod now r)) ->
   forall resp, handle now r = Ok resp -> http.StatusCode resp = 200).
Proof.
  intros Hm He Him Hinm.
  assert (Hpass : etag_checks_pass now r).
  { intros _. split; [exact Him |]. rewrite Hinm.
    destruct (current_etag_quoted now r) as [s ->]. discriminate. }
  assert (Hfull : forall headers resp,
            validate now r = Continue headers ->
            handle now r = Ok resp -> http.StatusCode resp = 200).
  { intros headers resp Hv Hh. rewrite (handle_GET now r Hm), Hv in Hh.
    destruct (String.eqb (http.URL_Path r) "/");
      [injection Hh as <-; reflexivity |].
    destruct (write_content _ _ _ _) as [b | p]; simpl in Hh;
      [| discriminate Hh].
    injection Hh as <-. apply full_response_status. }
  split_and!.
  - rewrite (validate_etags_passes now r Hpass), He. reflexivity.
  - intros Hl Hne Hdiff. apply handle_returned; [exact Hm | discriminate |].
    apply validate_unmodified_since_fails; assumption.
  - intros [Hl | [Hius Hims]] resp Hh.
    + eapply Hfull; [| exact Hh]. unfold validate.
      rewrite (validate_etags_passes now r Hpass).
      unfold validate_since. rewrite Hl. reflexivity.
    + eapply Hfull; [| exact Hh]. apply validate_passes; assumption.
Qed.

Lemma wildcard_if_none_match_is_not_a_match_witness :
  handle instant_a wildcard_none_match_request
  = Ok (error_response 412 "Document has been modified") /\
  (exists resp,
     handle instant_a wildcard_none_match_etag_only = Ok resp /\
     http.StatusCode resp = 200).
Proof.
  split.
  - destruct (wildcard_if_none_match_is_not_a_match instant_a
                wildcard_none_match_request) as (_ & H412 & _);
      [reflexivity | reflexivity | left; reflexivity | reflexivity |].
    apply H412; [reflexivity | |]; vm_compute; discriminate.
  - eexists. split; [vm_compute; reflexivity |].
    destruct (wildcard_if_none_match_is_not_a_match instant_a
                wildcard_none_match_etag_only) as (_ & _ & H200);
      [reflexivity | reflexivity | left; reflexivity | reflexivity |].
    apply H200; [left; reflexivity | reflexivity].
Defined.
